(** * go-filecoin test harness: a shallow embedding of [testhelpers/commands.go]

    The harness drives [go-filecoin] node processes through their command
    line.  Everything the Go code obtains from the operating system (the
    outcome of a spawned process, of a signal, of an HTTP request) enters the
    model as an explicit environment value; the code between those calls is
    transcribed as Rocq functions, test-aborting assertions as an error
    result. *)

From stdpp Require Import base option list sorting gmap strings pretty.
From Stdlib Require Import ZArith Lia Ascii String.

Set Warnings "-register-all,-clear-no-such-hyp".

Local Open Scope string_scope.
Local Open Scope Z_scope.

(** ** Go values used by the harness *)

(** Go [error] values, by the dynamic types the harness tells apart. *)
Inductive error : Type :=
| ExitError (state : string)
    (* [*exec.ExitError]: the process ended unsuccessfully; [state] is its
       termination status, e.g. "exit status 1" or "signal: killed" *)
| PlainError (msg : string)
    (* an error of any other dynamic type *)
| WithMessage (cause : error) (format : string) (args : list string)
    (* the result of [errors.Wrapf cause format args...] *)
| Errorf (format : string) (args : list error).
    (* the result of [fmt.Errorf format args...] *)

(** [ctx.Err()] of a [context.WithTimeout] context. *)
Inductive ctxError : Type := Canceled | DeadlineExceeded.

(** A value or a Go error. *)
Inductive result (A : Type) : Type :=
| Ok (a : A)
| Err (e : error).
Arguments Ok {A} a.
Arguments Err {A} e.

(** [errors.Wrapf] applied to a non-nil error. *)
Definition Wrapf (err : error) (format : string) (args : list string) : error :=
  WithMessage err format args.

(** [time.Duration]: nanoseconds. *)
Definition Duration := Z.
Definition Millisecond : Duration := 1000000.
Definition Second : Duration := 1000 * Millisecond.
Definition Minute : Duration := 60 * Second.

Definition DefaultDaemonCmdTimeout : Duration := 1 * Minute.

(** ** The [strings] functions the harness calls *)

Module strings.

(** [strings.Contains s substr]. *)
Fixpoint Contains (s substr : string) : bool :=
  String.prefix substr s ||
  match s with
  | EmptyString => false
  | String _ s' => Contains s' substr
  end.

(** [strings.Split s sep] for a one-character separator. *)
Fixpoint SplitChar (s : string) (sep : ascii) : list string :=
  match s with
  | EmptyString => [EmptyString]
  | String a s' =>
      if Ascii.eqb a sep then EmptyString :: SplitChar s' sep
      else match SplitChar s' sep with
           | h :: t => String a h :: t
           | [] => [String a EmptyString]
           end
  end.

(** [strings.Trim s cutset] for a one-character cutset. *)
Fixpoint TrimLeftChar (s : string) (c : ascii) : string :=
  match s with
  | EmptyString => EmptyString
  | String a s' => if Ascii.eqb a c then TrimLeftChar s' c else s
  end.

Fixpoint TrimRightChar (s : string) (c : ascii) : string :=
  match s with
  | EmptyString => EmptyString
  | String a s' =>
      match TrimRightChar s' c with
      | EmptyString => if Ascii.eqb a c then EmptyString else String a EmptyString
      | r => String a r
      end
  end.

Definition TrimChar (s : string) (c : ascii) : string :=
  TrimRightChar (TrimLeftChar s c) c.

(** [strings.Join elems sep]. *)
Definition Join (elems : list string) (sep : string) : string :=
  String.concat sep elems.

End strings.

(** ** testify assertions

    A [require.*] call that does not hold stops the test ([t.FailNow]); the
    model returns the failed assertion with the values the call was given,
    which are what the failure report is built from. *)
Inductive Failure : Type :=
| NoErrorFailed (err : error) (msgAndArgs : list string)
| EqualFailed (expected actual : Z) (msgAndArgs : list string)
| NotContainsFailed (s contains : string)
| EmptyFailed (object : string)
| ContainsFailed (s contains : string)
| TestFatal (args : list string)        (* [t.Fatal(args...)] with text *)
| TestFatalErr (err : error)            (* [t.Fatal(err)] *)
| Panicked (msg : string).              (* a Go panic *)

(** The text values handed to the failed assertion. *)
Definition reported (f : Failure) : list string :=
  match f with
  | NoErrorFailed _ m => m
  | EqualFailed _ _ m => m
  | NotContainsFailed s c => [s; c]
  | EmptyFailed o => [o]
  | ContainsFailed s c => [s; c]
  | TestFatal args => args
  | TestFatalErr _ => []
  | Panicked msg => [msg]
  end.

(** A computation of the test: a value, or the assertion that stopped it. *)
Inductive T (A : Type) : Type :=
| Pass (a : A)
| Fatal (f : Failure).
Arguments Pass {A} a.
Arguments Fatal {A} f.

#[global] Instance T_ret : MRet T := fun _ a => Pass a.
#[global] Instance T_bind : MBind T := fun _ _ k m =>
  match m with
  | Pass a => k a
  | Fatal f => Fatal f
  end.

Module require.

Definition NoError (err : option error) (msgAndArgs : list string) : T unit :=
  match err with
  | None => Pass tt
  | Some e => Fatal (NoErrorFailed e msgAndArgs)
  end.

Definition Equal (expected actual : Z) (msgAndArgs : list string) : T unit :=
  if Z.eqb expected actual then Pass tt
  else Fatal (EqualFailed expected actual msgAndArgs).

Definition NotContains (s contains : string) : T unit :=
  if strings.Contains s contains then Fatal (NotContainsFailed s contains)
  else Pass tt.

Definition Contains (s contains : string) : T unit :=
  if strings.Contains s contains then Pass tt
  else Fatal (ContainsFailed s contains).

Definition Empty (object : string) : T unit :=
  match object with
  | EmptyString => Pass tt
  | _ => Fatal (EmptyFailed object)
  end.

(** [require.NoError] on a call that also returns a value. *)
Definition NoErrorOf {A} (r : result A) : T A :=
  match r with
  | Ok a => Pass a
  | Err e => Fatal (NoErrorFailed e [])
  end.

End require.

(** ** Output and TestDaemon *)

(** [Output]: the result of one command.  The pipe handles, the lock and the
    test handle carry no data of their own and are left out. *)
Record Output : Type := mkOutput {
  Input : string;
  Args : list string;
  Code : Z;
  Error : option error;
  stdout : string;
  stderr : string
}.

(** [TestDaemon]: the configuration of one managed node. *)
Record TestDaemon : Type := mkTestDaemon {
  cmdAddr : string;
  swarmAddr : string;
  repoDir : string;
  walletFile : string;
  walletAddr : string;
  genesisFile : string;
  mockMine : bool;
  keyFiles : list string;
  firstRun : bool;
  init : bool;
  cmdTimeout : Duration
}.

(** ** The operating system, as the harness sees it *)

(** What one [exec.CommandContext] command does, call by call. *)
Record Execution : Type := mkExecution {
  stderrPipeErr : option error;   (* cmd.StderrPipe() *)
  stdoutPipeErr : option error;   (* cmd.StdoutPipe() *)
  startErr : option error;        (* cmd.Start() *)
  stderrRead : result string;     (* ioutil.ReadAll(stderr) *)
  stdoutRead : result string;     (* ioutil.ReadAll(stdout) *)
  waitErr : option error;         (* cmd.Wait() *)
  ctxErr : option ctxError        (* ctx.Err() once Wait has returned *)
}.

Record OS : Type := mkOS {
  GetFilecoinBinary : result string;
  (* the command spawned after [n] earlier ones:
     binary, arguments, standard input, deadline *)
  spawn : nat → string → list string → option string → Duration → Execution;
  (* binary, arguments: [exec.Command(..).CombinedOutput()] *)
  CombinedOutput : string → list string → string * option error
}.

(** The state of the running test: its log ([t.Logf] calls, format and
    arguments) and the number of commands it has spawned. *)
Record Test : Type := mkTest {
  logs : list (string * list string);
  spawned : nat
}.

(** A step of the test: it may stop the test, and it changes its state. *)
Definition M (A : Type) : Type := Test → T A * Test.

#[global] Instance M_ret : MRet M := fun _ a t => (Pass a, t).
#[global] Instance M_bind : MBind M := fun _ _ k m t =>
  match m t with
  | (Pass a, t') => k a t'
  | (Fatal f, t') => (Fatal f, t')
  end.

Definition liftT {A} (x : T A) : M A := fun t => (x, t).

Definition Logf (format : string) (args : list string) : M unit :=
  fun t => (Pass tt, mkTest (logs t ++ [(format, args)]) (spawned t)).

Definition CommandContext (os : OS) (timeout : Duration) (bin : string)
    (args : list string) (stdin : option string) : M Execution :=
  fun t => (Pass (spawn os (spawned t) bin args stdin timeout),
            mkTest (logs t) (S (spawned t))).

(** ** Running a command: [Run], [RunWithStdin] *)

(** "handle Run("cmd subcmd")" *)
Definition splitArgs (args : list string) : list string :=
  match args with
  | [a] => strings.SplitChar a " "%char
  | _ => args
  end.

Definition finalArgs (td : TestDaemon) (args : list string) : list string :=
  splitArgs args ++ ["--repodir=" +:+ repoDir td; "--cmdapiaddr=" +:+ cmdAddr td].

(** The type switch on the error of [cmd.Wait()]. *)
Definition afterWait (o : Output) (final : list string)
    (err : option error) (ctx : option ctxError) : Output :=
  match err with
  | Some (ExitError st) =>
      let e :=
        match ctx with
        | Some DeadlineExceeded =>
            Some (Wrapf (ExitError st)
                    "context deadline exceeded for command: %q"
                    [strings.Join final " "])
        | _ => Error o
        end in
      mkOutput (Input o) (Args o) 1 e (stdout o) (stderr o)
  | Some e =>
      mkOutput (Input o) (Args o) (Code o) (Some e) (stdout o) (stderr o)
  | None => o
  end.

Definition RunWithStdin (os : OS) (td : TestDaemon)
    (stdin : option string) (args : list string) : M Output :=
  bin ← liftT (require.NoErrorOf (GetFilecoinBinary os));
  Logf "run: %q\n" [strings.Join (finalArgs td args) " "];;
  cmd ← CommandContext os (cmdTimeout td) bin (finalArgs td args) stdin;
  liftT (require.NoError (stderrPipeErr cmd) []);;
  liftT (require.NoError (stdoutPipeErr cmd) []);;
  liftT (require.NoError (startErr cmd) []);;
  stderrBytes ← liftT (require.NoErrorOf (stderrRead cmd));
  stdoutBytes ← liftT (require.NoErrorOf (stdoutRead cmd));
  let o := mkOutput "" (splitArgs args) 0 None stdoutBytes stderrBytes in
  mret (afterWait o (finalArgs td args) (waitErr cmd) (ctxErr cmd)).

Definition Run (os : OS) (td : TestDaemon) (args : list string) : M Output :=
  RunWithStdin os td None args.

(** ** Assertions on an [Output] *)

Definition ReadStderr (o : Output) : string := stderr o.
Definition ReadStdout (o : Output) : string := stdout o.

Definition AssertSuccess (o : Output) : T Output :=
  require.NoError (Error o) [];;
  let oErr := ReadStderr o in
  require.Equal 0 (Code o) [oErr];;
  require.NotContains oErr "CRITICAL";;
  require.NotContains oErr "ERROR";;
  require.NotContains oErr "WARNING";;
  require.NotContains oErr "Error:";;
  mret o.

Definition AssertFail (o : Output) (err : string) : T Output :=
  require.NoError (Error o) [];;
  require.Equal 1 (Code o) [];;
  require.Empty (ReadStdout o);;
  require.Contains (ReadStderr o) err;;
  mret o.

Definition RunSuccess (os : OS) (td : TestDaemon) (args : list string) : M Output :=
  o ← Run os td args; liftT (AssertSuccess o).

Definition RunFail (os : OS) (td : TestDaemon) (err : string)
    (args : list string) : M Output :=
  o ← Run os td args; liftT (AssertFail o err).

(** ** [RunInit], [RunCommand] *)

Definition RunCommand (os : OS) (cmd : string) (opts : list string)
    : option string * option error :=
  match GetFilecoinBinary os with
  | Err err => (None, Some err)
  | Ok filecoinBin =>
      let '(out, e) := CombinedOutput os filecoinBin ("init" :: opts) in
      (Some out, e)
  end.

Definition RunInit (os : OS) (opts : list string) : option string * option error :=
  RunCommand os "init" opts.

(** ** Chain data: package [types] *)

Module types.

(** A content identifier, by its byte string. *)
Definition Cid : Type := string.

(** Modelled from the spec: [types.Block] is not among the sources; the
    harness uses a block only through the identifier it exposes
    ("each block exposing an identifier usable to build a HeadState"). *)
Record Block : Type := mkBlock {
  Cid_of : Cid
}.

(** Modelled from the spec: [types.SortedCidSet] is not among the sources.
    The spec describes a HeadState as "an order-independent set of block
    identifiers" whose equality "is set equality, not sequence equality";
    as the type's name says, the identifiers are kept as a sorted sequence
    without repetition, [Add] inserts at the sorted position and leaves a
    set that already holds the identifier unchanged, and [Equals] compares
    the two sequences position by position. *)
Record SortedCidSet : Type := mkSortedCidSet {
  s : list Cid
}.

Definition empty : SortedCidSet := mkSortedCidSet [].

Fixpoint insert (id : Cid) (l : list Cid) : list Cid :=
  match l with
  | [] => [id]
  | c :: l' =>
      if decide (id = c) then l
      else if decide (String.le id c) then id :: l
      else c :: insert id l'
  end.

Definition Add (set : SortedCidSet) (id : Cid) : SortedCidSet :=
  mkSortedCidSet (insert id (s set)).

Fixpoint equalCids (l1 l2 : list Cid) : bool :=
  match l1, l2 with
  | [], [] => true
  | c1 :: l1', c2 :: l2' => bool_decide (c1 = c2) && equalCids l1' l2'
  | _, _ => false
  end.

Definition Equals (s1 s2 : SortedCidSet) : bool :=
  equalCids (s s1) (s s2).

End types.

(** ** JSON decoding *)

(** A decoded JSON value ([interface{}] after [json] decoding). *)
Inductive JSON : Type :=
| JNull
| JBool (b : bool)
| JNumber (n : Z)
| JString (str : string)
| JArray (l : list JSON)
| JObject (fields : list (string * JSON)).

(** Package [encoding/json], for the two target types the harness decodes to. *)
Record Json : Type := mkJson {
  (* [json.NewDecoder(body).Decode(&out)], [out : map[string]interface{}] *)
  decodeObject : string → result (gmap string JSON);
  (* [json.Unmarshal(line, &b)], [b : []types.Block] *)
  unmarshalBlocks : string → result (list types.Block)
}.

(** ** Liveness: [tryAPICheck], [WaitForAPI] *)

(** [http.Get]: a request is answered by the number of requests made before
    it and its URL. *)
Record Net : Type := mkNet {
  httpGet : nat → string → result string
}.

(** What the prober has done so far. *)
Record Probing : Type := mkProbing {
  requests : nat;       (* HTTP requests issued *)
  slept : Duration      (* total time spent in [time.Sleep] *)
}.

Definition Sleep (d : Duration) (w : Probing) : Probing :=
  mkProbing (requests w) (slept w + d).

Definition apiURL (td : TestDaemon) : string :=
  "http://127.0.0.1" +:+ cmdAddr td +:+ "/api/id".

Definition tryAPICheck (net : Net) (json : Json) (td : TestDaemon) (w : Probing)
    : option error * Probing :=
  let url := apiURL td in
  let w' := mkProbing (S (requests w)) (slept w) in
  match httpGet net (requests w) url with
  | Err err => (Some err, w')
  | Ok body =>
      match decodeObject json body with
      | Err err => (Some (Errorf "liveness check failed: %s" [err]), w')
      | Ok out =>
          match out !! "ID" with
          | None =>
              (Some (Errorf "liveness check failed: ID field not present in output" []), w')
          | Some _ => (None, w')
          end
      end
  end.

(** The loop of [WaitForAPI] with [n] iterations left ([n = 100 - i]). *)
Fixpoint WaitForAPI_loop (n : nat) (net : Net) (json : Json) (td : TestDaemon)
    (w : Probing) : option error * Probing :=
  match n with
  | O =>
      (Some (Errorf
         "filecoin node failed to come online in given time period (20 seconds)" []),
       w)
  | S n' =>
      let '(err, w1) := tryAPICheck net json td w in
      match err with
      | None => (None, w1)
      | Some _ => WaitForAPI_loop n' net json td (Sleep (Millisecond * 100) w1)
      end
  end.

Definition WaitForAPI (net : Net) (json : Json) (td : TestDaemon) (w : Probing)
    : option error * Probing :=
  WaitForAPI_loop 100 net json td w.

(** ** Shutdown *)

Inductive Signal : Type := SIGTERM | SIGINT.

(** The daemon process as the supervisor sees it at shutdown. *)
Record Process : Type := mkProcess {
  signal : Signal → option error;     (* td.process.Process.Signal(sig) *)
  daemonStderr : result string        (* ioutil.ReadAll(td.Stderr) *)
}.

(** The machine: directories that exist, signals delivered to the daemon,
    and whether the test has been marked as failed. *)
Record Host : Type := mkHost {
  dirs : gset string;
  delivered : list Signal;
  failed : bool
}.

(** How a call ends. *)
Inductive Exit : Type :=
| Returned
| Aborted                      (* [t.Fatalf] *)
| Panic (msg : string)
| PanicErr (err : error).

(** [os.RemoveAll path] on the directories that exist: what is left of
    them, and the error it returns.  It removes what it can and may fail
    (an entry in use, a missing permission), so its outcome belongs to the
    machine, like that of a signal. *)
Record Disk : Type := mkDisk {
  removeAll : string → gset string → gset string * option error
}.

Definition Signalled (proc : Process) (sig : Signal) (h : Host)
    : option error * Host :=
  match signal proc sig with
  | Some err => (Some err, h)
  | None => (None, mkHost (dirs h) (delivered h ++ [sig]) (failed h))
  end.

Definition markFailed (b : bool) (h : Host) : Host :=
  mkHost (dirs h) (delivered h) (failed h || b).

Definition Shutdown (disk : Disk) (proc : Process) (td : TestDaemon) (h : Host)
    : Exit * Host :=
  match Signalled proc SIGTERM h with
  | (Some err, h1) =>
      match daemonStderr proc with
      | Err e => (PanicErr e, h1)
      | Ok _ => (Aborted, markFailed true h1)
      end
  | (None, h1) =>
      if decide (repoDir td = "") then (Panic "testdaemon had no repodir set", h1)
      else
        (* [_ = os.RemoveAll(td.repoDir)]: the error is dropped *)
        (Returned,
         mkHost (fst (removeAll disk (repoDir td) (dirs h1))) (delivered h1) (failed h1))
  end.

Definition ShutdownSuccess (proc : Process) (td : TestDaemon) (h : Host)
    : Exit * Host :=
  let '(err, h1) := Signalled proc SIGTERM h in
  let h2 := markFailed (bool_decide (err ≠ None)) h1 in
  match daemonStderr proc with
  | Err e => (PanicErr e, h2)
  | Ok tdErr =>
      let h3 := markFailed (bool_decide (err ≠ None)) h2 in
      let h4 := markFailed (strings.Contains tdErr "CRITICAL") h3 in
      let h5 := markFailed (strings.Contains tdErr "ERROR") h4 in
      let h6 := markFailed (strings.Contains tdErr "WARNING") h5 in
      (Returned, h6)
  end.

Definition ShutdownEasy (proc : Process) (td : TestDaemon) (h : Host)
    : Exit * Host :=
  let '(err, h1) := Signalled proc SIGINT h in
  let h2 := markFailed (bool_decide (err ≠ None)) h1 in
  match daemonStderr proc with
  | Err e => (PanicErr e, h2)
  | Ok tdOut => (Returned, markFailed (bool_decide (err ≠ None)) h2)
  end.

(** ** Chain heads and convergence *)

Definition newline : ascii := "010"%char.

(** The loop of [MustUnmarshalChain] over the lines of the chain. *)
Fixpoint unmarshalLines (json : Json) (lines : list string)
    : T (list (list types.Block)) :=
  match lines with
  | [] => Pass []
  | line :: rest =>
      match unmarshalBlocks json line with
      | Err err => Fatal (TestFatalErr err)
      | Ok b => bs ← unmarshalLines json rest; mret (b :: bs)
      end
  end.

Definition MustUnmarshalChain (json : Json) (input : string)
    : T (list (list types.Block)) :=
  let chain := strings.TrimChar input newline in
  unmarshalLines json (strings.SplitChar chain newline).

Definition chainLs : list string := ["chain"; "ls"; "--enc=json"].

Definition GetChainHead (os : OS) (json : Json) (td : TestDaemon)
    : M (list types.Block) :=
  out ← RunSuccess os td chainLs;
  bc ← liftT (MustUnmarshalChain json (ReadStdout out));
  match bc with
  | b :: _ => mret b
  | [] => liftT (Fatal (Panicked "index out of range"))
  end.

(** [var h types.SortedCidSet; for _, blk := range blks { h.Add(blk.Cid()) }] *)
Definition headOf (blks : list types.Block) : types.SortedCidSet :=
  foldl (fun set blk => types.Add set (types.Cid_of blk)) types.empty blks.

(** A peer's polling goroutine: still polling, finished ([wg.Done]), or
    ended by a failed assertion without signalling. *)
Inductive Peer : Type :=
| Polling
| Done
| Exited (f : Failure).

Definition isDone (p : Peer) : bool :=
  match p with
  | Done => true
  | _ => false
  end.

(** One iteration of a peer's loop. *)
Definition pollOnce (os : OS) (json : Json) (expHead : types.SortedCidSet)
    (p : TestDaemon) (t : Test) : Peer * Test :=
  match GetChainHead os json p t with
  | (Fatal f, t') => (Exited f, t')
  | (Pass actHeadBlks, t') =>
      if types.Equals expHead (headOf actHeadBlks) then (Done, t')
      else (Polling, t')
  end.

Definition timeout : Failure := TestFatal ["Timeout waiting for chains to sync"].

(** The [select] of the coordinator against the goroutines.  [sched] is the
    interleaving: at time [at_] (since the call) peer [i] runs one iteration
    of its loop.  The coordinator returns once every peer has signalled, and
    fails at the first moment not before [wait]. *)
Fixpoint await (os : OS) (json : Json) (expHead : types.SortedCidSet)
    (peers : list TestDaemon) (st : list Peer) (wait : Duration)
    (sched : list (Duration * nat)) (t : Test) : T unit * Test :=
  if forallb isDone st then (Pass tt, t)
  else
    match sched with
    | [] => (Fatal timeout, t)
    | (at_, i) :: sched' =>
        if decide (wait ≤ at_) then (Fatal timeout, t)
        else
          match peers !! i, st !! i with
          | Some p, Some Polling =>
              let '(st_i, t') := pollOnce os json expHead p t in
              await os json expHead peers (<[i := st_i]> st) wait sched' t'
          | _, _ => await os json expHead peers st wait sched' t
          end
    end.

Definition MustHaveChainHeadBy (os : OS) (json : Json) (td : TestDaemon)
    (wait : Duration) (peers : list TestDaemon)
    (sched : list (Duration * nat)) : M unit :=
  fun t =>
    match GetChainHead os json td t with
    | (Fatal f, t1) => (Fatal f, t1)
    | (Pass expHeadBlks, t1) =>
        let expHead := headOf expHeadBlks in
        await os json expHead peers (replicate (List.length peers) Polling)
          wait sched t1
    end.

(** ** Lines of a command's output *)

Definition ReadStdoutTrimNewlines (o : Output) : string :=
  strings.TrimChar (ReadStdout o) newline.

Definition RunSuccessLines (os : OS) (td : TestDaemon) (args : list string)
    : M (list string) :=
  output ← RunSuccess os td args;
  let result := ReadStdoutTrimNewlines output in
  mret (strings.SplitChar result newline).

Definition RunSuccessFirstLine (os : OS) (td : TestDaemon) (args : list string)
    : M string :=
  lines ← RunSuccessLines os td args;
  match lines with
  | line :: _ => mret line
  | [] => liftT (Fatal (Panicked "index out of range"))
  end.

(** ** Identity of a node: [GetID], [GetAddress], [ConnectSuccess] *)

(** [json.Unmarshal(data, &parsed)] with [parsed : map[string]interface{}]. *)
Definition Unmarshal : Type := string → result (gmap string JSON).

Definition GetID (os : OS) (unmarshal : Unmarshal) (td : TestDaemon) : M string :=
  out ← RunSuccess os td ["id"];
  parsed ← liftT (require.NoErrorOf (unmarshal (ReadStdout out)));
  match parsed !! "ID" with
  | Some (JString id) => mret id
  | _ => liftT (Fatal (Panicked "interface conversion: interface {} is not string"))
  end.

Definition GetAddress (os : OS) (unmarshal : Unmarshal) (td : TestDaemon)
    : M string :=
  out ← RunSuccess os td ["id"];
  parsed ← liftT (require.NoErrorOf (unmarshal (ReadStdout out)));
  match parsed !! "Addresses" with
  | Some (JArray adders) =>
      match adders with
      | JString a :: _ => mret a
      | _ :: _ =>
          liftT (Fatal (Panicked "interface conversion: interface {} is not string"))
      | [] => liftT (Fatal (Panicked "index out of range"))
      end
  | _ =>
      liftT (Fatal (Panicked "interface conversion: interface {} is not []interface {}"))
  end.

(** [t.Log(line)]: the text, without arguments. *)
Definition Log (line : string) : M unit :=
  fun t => (Pass tt, mkTest (logs t ++ [(line, [])]) (spawned t)).

Definition ConnectSuccess (os : OS) (unmarshal : Unmarshal)
    (td remote : TestDaemon) : M Output :=
  addr ← GetAddress os unmarshal remote;
  out ← RunSuccess os td ["swarm"; "connect"; addr];
  peers1 ← RunSuccess os td ["swarm"; "peers"];
  peers2 ← RunSuccess os remote ["swarm"; "peers"];
  Log "[success] 1 -> 2";;
  remoteID ← GetID os unmarshal remote;
  liftT (require.Contains (ReadStdout peers1) remoteID);;
  Log "[success] 2 -> 1";;
  tdID ← GetID os unmarshal td;
  liftT (require.Contains (ReadStdout peers2) tdID);;
  mret out.

(** ** Starting a daemon: [Start] *)

(** The loop over [td.keyFiles] in [Start]. *)
Fixpoint importKeys (os : OS) (td : TestDaemon) (files : list string) : M unit :=
  match files with
  | [] => mret tt
  | file :: rest =>
      RunSuccess os td ["wallet"; "import"; file];;
      importKeys os td rest
  end.

(** [processStart] is the outcome of [td.process.Start()]. *)
Definition Start (os : OS) (net : Net) (json : Json) (processStart : option error)
    (td : TestDaemon) (w : Probing) : M TestDaemon :=
  liftT (require.NoError processStart []);;
  liftT (require.NoError (fst (WaitForAPI net json td w)) ["Daemon failed to start"]);;
  (if firstRun td then importKeys os td (keyFiles td) else mret tt);;
  mret td.

(** ** Mining: [MineAndPropagate], [MakeMoney] *)

(** [peers] is [None] for a nil slice (no peers given). *)
Definition MineAndPropagate (os : OS) (json : Json) (td : TestDaemon)
    (wait : Duration) (peers : option (list TestDaemon))
    (sched : list (Duration * nat)) : M unit :=
  RunSuccess os td ["mining"; "once"];;
  match peers with
  | None => mret tt
  | Some ps => MustHaveChainHeadBy os json td wait ps sched
  end.

(** The loop of [MakeMoney] at index [i] with [n] iterations left;
    [scheds i] is the interleaving of the peers during iteration [i]. *)
Fixpoint MakeMoney_loop (n i : nat) (os : OS) (json : Json) (td : TestDaemon)
    (peers : option (list TestDaemon))
    (scheds : nat → list (Duration * nat)) : M unit :=
  match n with
  | O => mret tt
  | S n' =>
      MineAndPropagate os json td (Second * 1) peers (scheds i);;
      MakeMoney_loop n' (S i) os json td peers scheds
  end.

Definition MakeMoney (os : OS) (json : Json) (td : TestDaemon) (rewards : Z)
    (peers : option (list TestDaemon))
    (scheds : nat → list (Duration * nat)) : M unit :=
  MakeMoney_loop (Z.to_nat rewards) 0 os json td peers scheds.

(** ** Configuring a daemon: the options and [NewDaemon] *)

Definition SwarmAddr (addr : string) (td : TestDaemon) : TestDaemon :=
  mkTestDaemon (cmdAddr td) addr (repoDir td) (walletFile td) (walletAddr td)
    (genesisFile td) (mockMine td) (keyFiles td) (firstRun td) (init td)
    (cmdTimeout td).

Definition RepoDir (dir : string) (td : TestDaemon) : TestDaemon :=
  mkTestDaemon (cmdAddr td) (swarmAddr td) dir (walletFile td) (walletAddr td)
    (genesisFile td) (mockMine td) (keyFiles td) (firstRun td) (init td)
    (cmdTimeout td).

Definition ShouldInit (i : bool) (td : TestDaemon) : TestDaemon :=
  mkTestDaemon (cmdAddr td) (swarmAddr td) (repoDir td) (walletFile td)
    (walletAddr td) (genesisFile td) (mockMine td) (keyFiles td) (firstRun td) i
    (cmdTimeout td).

Definition CmdTimeout (d : Duration) (td : TestDaemon) : TestDaemon :=
  mkTestDaemon (cmdAddr td) (swarmAddr td) (repoDir td) (walletFile td)
    (walletAddr td) (genesisFile td) (mockMine td) (keyFiles td) (firstRun td)
    (init td) d.

Definition WalletFile (f : string) (td : TestDaemon) : TestDaemon :=
  mkTestDaemon (cmdAddr td) (swarmAddr td) (repoDir td) f (walletAddr td)
    (genesisFile td) (mockMine td) (keyFiles td) (firstRun td) (init td)
    (cmdTimeout td).

Definition WalletAddr (a : string) (td : TestDaemon) : TestDaemon :=
  mkTestDaemon (cmdAddr td) (swarmAddr td) (repoDir td) (walletFile td) a
    (genesisFile td) (mockMine td) (keyFiles td) (firstRun td) (init td)
    (cmdTimeout td).

Definition GenesisFile (a : string) (td : TestDaemon) : TestDaemon :=
  mkTestDaemon (cmdAddr td) (swarmAddr td) (repoDir td) (walletFile td)
    (walletAddr td) a (mockMine td) (keyFiles td) (firstRun td) (init td)
    (cmdTimeout td).

(** What [NewDaemon] asks of its surroundings, besides the binary. *)
Record Setup : Type := mkSetup {
  GetFreePort : nat → result Z;        (* the call after [n] earlier ones *)
  TempDir : result string;             (* ioutil.TempDir("", "go-fil-test") *)
  GenesisFilePath : string;
  KeyFilePaths : list string;
  daemonStdoutPipe : option error;     (* td.process.StdoutPipe() *)
  daemonStderrPipe : option error;     (* td.process.StderrPipe() *)
  daemonStdinPipe : option error       (* td.process.StdinPipe() *)
}.

(** [if err != nil { t.Fatal(err) }] *)
Definition orFatal {A} (r : result A) : T A :=
  match r with
  | Ok a => Pass a
  | Err err => Fatal (TestFatalErr err)
  end.

Definition noFatal (err : option error) : T unit :=
  match err with
  | None => Pass tt
  | Some e => Fatal (TestFatalErr e)
  end.

(** [fmt.Sprintf("%t", b)] *)
Definition fmtBool (b : bool) : string := if b then "true" else "false".

(** The flags of the [init] command, in the order [NewDaemon] passes them. *)
Definition initFlags (td : TestDaemon) : list string :=
  ["--repodir=" +:+ repoDir td;
   "--cmdapiaddr=" +:+ cmdAddr td;
   "--walletfile=" +:+ walletFile td;
   "--walletaddr=" +:+ walletAddr td;
   "--testgenesis=" +:+ fmtBool (negb (String.eqb (walletFile td) ""));
   "--genesisfile=" +:+ genesisFile td].

(** The arguments of the daemon process. *)
Definition daemonArgs (td : TestDaemon) : list string :=
  ["daemon";
   "--repodir=" +:+ repoDir td;
   "--cmdapiaddr=" +:+ cmdAddr td;
   (if mockMine td then "--mock-mine" else "");
   "--swarmlisten=" +:+ swarmAddr td].

(** [NewDaemon] returns the daemon and the command line of its process
    (binary, arguments), not yet started. *)
Definition NewDaemon (os : OS) (env : Setup)
    (options : list (TestDaemon → TestDaemon))
    : T (TestDaemon * (string * list string)) :=
  filecoinBin ← orFatal (GetFilecoinBinary os);
  cmdPort ← orFatal (GetFreePort env 0);
  swarmPort ← orFatal (GetFreePort env 1);
  dir ← orFatal (TempDir env);
  let td :=
    foldl (fun td option => option td)
      (mkTestDaemon (":" +:+ pretty cmdPort)
         ("/ip4/127.0.0.1/tcp/" +:+ pretty swarmPort)
         dir "" "" (GenesisFilePath env) true (KeyFilePaths env) true true
         DefaultDaemonCmdTimeout)
      options in
  (if init td then noFatal (snd (RunInit os (initFlags td))) else Pass tt);;
  noFatal (daemonStdoutPipe env);;
  noFatal (daemonStderrPipe env);;
  noFatal (daemonStdinPipe env);;
  mret (td, (filecoinBin, daemonArgs td)).

(** ** Notions the properties are stated with *)

(** The four markers no successful command may print on stderr. *)
Definition clean (oErr : string) : Prop :=
  strings.Contains oErr "CRITICAL" = false ∧
  strings.Contains oErr "ERROR" = false ∧
  strings.Contains oErr "WARNING" = false ∧
  strings.Contains oErr "Error:" = false.

(** The command [RunWithStdin] spawns, given the binary. *)
Definition commandOf (os : OS) (td : TestDaemon) (stdin : option string)
    (args : list string) (t : Test) (bin : string) : Execution :=
  spawn os (spawned t) bin (finalArgs td args) stdin (cmdTimeout td).

(** The pipes opened, the process started and both streams were read. *)
Definition captured (cmd : Execution) (outB errB : string) : Prop :=
  stderrPipeErr cmd = None ∧ stdoutPipeErr cmd = None ∧ startErr cmd = None ∧
  stderrRead cmd = Ok errB ∧ stdoutRead cmd = Ok outB.

Definition logged (td : TestDaemon) (args : list string) (t : Test) : Test :=
  mkTest (logs t ++ [("run: %q\n", [strings.Join (finalArgs td args) " "])])
         (S (spawned t)).

Definition markers : list string := ["CRITICAL"; "ERROR"; "WARNING"; "Error:"].

(** The outcome of the probe issued as request number [k]. *)
Definition probe (net : Net) (json : Json) (td : TestDaemon) (k : nat)
    : option error :=
  fst (tryAPICheck net json td (mkProbing k 0)).

Definition gaveUp : error :=
  Errorf "filecoin node failed to come online in given time period (20 seconds)" [].

(** Strictly before, in the order the set is kept in. *)
Definition before (a b : types.Cid) : Prop := String.le a b ∧ a ≠ b.

(** The line [RunWithStdin] writes to the test log for [chain ls] on a node. *)
Definition runLine (td : TestDaemon) : string * list string :=
  ("run: %q\n", [strings.Join (finalArgs td chainLs) " "]).

(** An argument that holds no space. *)
Definition noSpace (a : string) : Prop := strings.Contains a " " = false.

(** The polling goroutines that have not signalled. *)
Definition pending (st : list Peer) : nat :=
  List.length (filter (fun p => isDone p = false) st).

(** The lines [MustUnmarshalChain] decodes. *)
Definition chainLines (input : string) : list string :=
  strings.SplitChar (strings.TrimChar input newline) newline.

(** A line the decoder accepts. *)
Definition decodable (json : Json) (line : string) : Prop :=
  ∃ b, unmarshalBlocks json line = Ok b.

(** The line [RunWithStdin] writes to the test log for a command on a node. *)
Definition runLog (td : TestDaemon) (args : list string) : string * list string :=
  ("run: %q\n", [strings.Join (finalArgs td args) " "]).

(** The key files [Start] imports. *)
Definition keysToImport (td : TestDaemon) : list string :=
  if firstRun td then keyFiles td else [].

(** The daemon [NewDaemon] configures before it applies the options. *)
Definition defaultDaemon (env : Setup) (cmdPort swarmPort : Z) (dir : string)
    : TestDaemon :=
  mkTestDaemon (":" +:+ pretty cmdPort) ("/ip4/127.0.0.1/tcp/" +:+ pretty swarmPort)
    dir "" "" (GenesisFilePath env) true (KeyFilePaths env) true true
    DefaultDaemonCmdTimeout.

(** An option made by one of the seven option functions of the package. *)
Definition exported (option : TestDaemon → TestDaemon) : Prop :=
  (∃ addr, option = SwarmAddr addr) ∨ (∃ dir, option = RepoDir dir) ∨
  (∃ i, option = ShouldInit i) ∨ (∃ d, option = CmdTimeout d) ∨
  (∃ f, option = WalletFile f) ∨ (∃ a, option = WalletAddr a) ∨
  (∃ a, option = GenesisFile a).

(** The head a node reports to the [chain ls] spawned after [k] earlier
    commands. *)
Definition headAt (os : OS) (json : Json) (p : TestDaemon) (k : nat)
    : T (list types.Block) :=
  fst (GetChainHead os json p (mkTest [] k)).

(** Every peer is polled once, in order, at the given times. *)
Definition oncoming (ats : list Duration) : list (Duration * nat) :=
  zip ats (seq 0 (List.length ats)).

(** What [mining once] on a node gives when it is the command spawned after
    [k] earlier ones. *)
Definition mineAt (os : OS) (td : TestDaemon) (k : nat) : T Output :=
  fst (RunSuccess os td ["mining"; "once"] (mkTest [] k)).

(** ** Fixtures of the examples *)

Definition td0 : TestDaemon :=
  mkTestDaemon ":3453" "/ip4/127.0.0.1/tcp/6000" "/tmp/go-fil-test1"
    "" "" "genesis.car" true [] true true DefaultDaemonCmdTimeout.

Definition t0 : Test := mkTest [] 0.

(** A command that ends normally with the given exit error (if any). *)
Definition ran (out err : string) (w : option error) (c : option ctxError)
    : Execution :=
  mkExecution None None None (Ok err) (Ok out) w c.

Definition osOf (e : Execution) : OS :=
  mkOS (Ok "/usr/bin/go-filecoin") (fun _ _ _ _ _ => e)
       (fun _ _ => ("", None)).

(** A command whose process ended well but whose [Wait] reported an error of
    its own (here: copying the piped standard input failed). *)
Definition osBrokenPipe : OS :=
  osOf (ran "QmData" "" (Some (PlainError "write |1: broken pipe")) None).

(** A command killed at its deadline after printing part of its output. *)
Definition osKilled : OS :=
  osOf (ran "" "Error: boom" (Some (ExitError "signal: killed"))
          (Some DeadlineExceeded)).

(** A node that refuses every connection. *)
Definition netRefused : Net :=
  mkNet (fun _ _ => Err (PlainError "dial tcp 127.0.0.1:3453: connection refused")).

(** A decoder for the examples: "{}" is the empty object, any other text
    starting with a brace an object with an [ID], the rest is rejected. *)
Definition json0 : Json :=
  mkJson (fun body =>
            if String.eqb body "{}" then Ok ∅
            else if String.prefix "{" body then Ok {[ "ID" := JString "QmNode" ]}
            else Err (PlainError "invalid character"))
         (fun _ => Ok []).

Definition procOk : Process := mkProcess (fun _ => None) (Ok "").

Definition host0 : Host := mkHost {[ "/tmp/go-fil-test1" ]} [] false.

(** A daemon configured with [RepoDir("")]. *)
Definition tdNoRepo : TestDaemon :=
  mkTestDaemon ":3453" "/ip4/127.0.0.1/tcp/6000" ""
    "" "" "genesis.car" true [] true true DefaultDaemonCmdTimeout.

(** Two nodes.  Output lines are comma-separated identifiers, one tipset per
    line, which the decoder of the examples turns into blocks. *)
Definition td1 : TestDaemon :=
  mkTestDaemon ":3454" "/ip4/127.0.0.1/tcp/6001" "/tmp/go-fil-test2"
    "" "" "genesis.car" true [] true true DefaultDaemonCmdTimeout.

Definition jsonLines : Json :=
  mkJson (fun _ => Ok ∅)
         (fun line => Ok (types.mkBlock <$> strings.SplitChar line ","%char)).

Definition answers (out : nat → list string → string) : OS :=
  mkOS (Ok "/usr/bin/go-filecoin")
       (fun n _ args _ _ => ran (out n args) "" None None)
       (fun _ _ => ("", None)).

(** The peer reports the genesis block first and the reference's head next. *)
Definition osCatchUp : OS :=
  answers (fun n _ => match n with
                      | 0%nat => "QmB,QmA"
                      | 1%nat => "QmGenesis"
                      | _ => "QmA,QmB"
                      end).

(** A node whose endpoint starts answering at the fourth request. *)
Definition netLate : Net :=
  mkNet (fun k _ => if (k <? 3)%nat then Err (PlainError "connection refused")
                    else Ok "{ID}").

(** A daemon process that has already gone away. *)
Definition procGone : Process :=
  mkProcess (fun _ => Some (PlainError "os: process already finished"))
            (Ok "panic: runtime error").

(** The only peer polls 100ms and 200ms after the call. *)
Definition schedTwice : list (Duration * nat) :=
  [(100 * Millisecond, 0%nat); (200 * Millisecond, 0%nat)].

(** Every command prints two lines, each ended by a newline. *)
Definition osTwoLines : OS :=
  answers (fun _ _ => "QmA" +:+ String newline ("QmB" +:+ String newline "")).

(** A daemon with two key files to import on its first start. *)
Definition tdKeys : TestDaemon :=
  mkTestDaemon ":3453" "/ip4/127.0.0.1/tcp/6000" "/tmp/go-fil-test1"
    "" "" "genesis.car" true ["a.key"; "b.key"] true true DefaultDaemonCmdTimeout.

(** Every command succeeds and prints nothing. *)
Definition osQuiet : OS := answers (fun _ _ => "").

(** The decoder of the examples for [id]: the text is the node's ID and its
    only address. *)
Definition unmarshalId : Unmarshal :=
  fun text => Ok {[ "ID" := JString text; "Addresses" := JArray [JString text] ]}.

(** Free ports 3453 and 6000, a fresh directory, two key files. *)
Definition env0 : Setup :=
  mkSetup (fun n => Ok (if (n =? 0)%nat then 3453 else 6000))
          (Ok "/tmp/go-fil-test42") "fixtures/genesis.car"
          ["fixtures/a.key"; "fixtures/b.key"] None None None.

(** The same with 3454 as the first free port. *)
Definition env1 : Setup :=
  mkSetup (fun n => Ok (if (n =? 0)%nat then 3454 else 6001))
          (Ok "/tmp/go-fil-test43") "fixtures/genesis.car"
          ["fixtures/a.key"; "fixtures/b.key"] None None None.

(** [path] itself or something below it, the paths compared as written. *)
Definition within (path q : string) : bool :=
  String.eqb path q || String.prefix (path +:+ "/") q.

(** A disk on which every removal goes through. *)
Definition diskPlain : Disk :=
  mkDisk (fun path fs => (filter (fun q => within path q = false) fs, None)).

(** A disk on which nothing can be removed. *)
Definition diskBusy : Disk :=
  mkDisk (fun path fs =>
            (fs, Some (PlainError "unlinkat: device or resource busy"))).

(** The first command succeeds, every later one exits with status 1. *)
Definition osSecondFails : OS :=
  mkOS (Ok "/usr/bin/go-filecoin")
       (fun n _ _ _ _ =>
          match n with
          | O => ran "" "" None None
          | _ => ran "" "Error: out of gas" (Some (ExitError "exit status 1")) None
          end)
       (fun _ _ => ("", None)).

(** * Properties *)

(** ** The [strings] functions on small inputs *)

Example SplitChar_command :
  strings.SplitChar "mpool --wait-for-count=1" " "%char = ["mpool"; "--wait-for-count=1"].
Proof. reflexivity. Qed.

Example SplitChar_edges :
  strings.SplitChar "" " "%char = [""] ∧
  strings.SplitChar "a  b " " "%char = ["a"; ""; "b"; ""].
Proof. split; reflexivity. Qed.

Example TrimChar_newlines :
  strings.TrimChar (String newline (String newline ("ab" +:+ String newline "c"
                      +:+ String newline ""))) newline
  = "ab" +:+ String newline "c".
Proof. reflexivity. Qed.

Example Contains_cases :
  strings.Contains "12:01 ERROR disk" "ERROR" = true ∧
  strings.Contains "error" "ERROR" = false ∧
  strings.Contains "" "" = true.
Proof. repeat split. Qed.

Example splitArgs_cases :
  splitArgs ["chain ls"] = ["chain"; "ls"] ∧
  splitArgs ["wallet"; "addrs new"] = ["wallet"; "addrs new"] ∧
  splitArgs [] = [].
Proof. repeat split. Qed.

(** ** Helper lemmas on the test monads *)

Lemma bindT_Pass {A B} (m : T A) (k : A → T B) (b : B) :
  (m ≫= k) = Pass b → ∃ a, m = Pass a ∧ k a = Pass b.
Proof. destruct m as [a|f]; intros H; [eauto | discriminate H]. Qed.

Lemma NoError_Pass err m : require.NoError err m = Pass tt ↔ err = None.
Proof. destruct err; simpl; split; intros H; congruence. Qed.

Lemma Equal_Pass a b m : require.Equal a b m = Pass tt ↔ a = b.
Proof.
  unfold require.Equal. destruct (Z.eqb_spec a b); split; intros H; congruence.
Qed.

Lemma NotContains_Pass x c :
  require.NotContains x c = Pass tt ↔ strings.Contains x c = false.
Proof.
  unfold require.NotContains. destruct (strings.Contains x c); split; congruence.
Qed.

Lemma Contains_Pass x c :
  require.Contains x c = Pass tt ↔ strings.Contains x c = true.
Proof.
  unfold require.Contains. destruct (strings.Contains x c); split; congruence.
Qed.

Lemma Empty_Pass x : require.Empty x = Pass tt ↔ x = "".
Proof. destruct x; simpl; split; congruence. Qed.

Lemma AssertSuccess_Pass o :
  AssertSuccess o = Pass o ↔ Error o = None ∧ Code o = 0 ∧ clean (ReadStderr o).
Proof.
  unfold AssertSuccess, clean. split.
  - intros H.
    apply bindT_Pass in H as [[] [H1 H]]. apply NoError_Pass in H1.
    apply bindT_Pass in H as [[] [H2 H]]. apply Equal_Pass in H2.
    apply bindT_Pass in H as [[] [H3 H]]. apply NotContains_Pass in H3.
    apply bindT_Pass in H as [[] [H4 H]]. apply NotContains_Pass in H4.
    apply bindT_Pass in H as [[] [H5 H]]. apply NotContains_Pass in H5.
    apply bindT_Pass in H as [[] [H6 H]]. apply NotContains_Pass in H6.
    repeat split; auto.
  - intros (H1 & H2 & H3 & H4 & H5 & H6).
    rewrite H1, H2. unfold require.NotContains.
    rewrite H3, H4, H5, H6. reflexivity.
Qed.

Lemma AssertSuccess_same o o' : AssertSuccess o = Pass o' → o' = o.
Proof.
  unfold AssertSuccess. intros H.
  do 6 (apply bindT_Pass in H as [[] [_ H]]). inversion H. reflexivity.
Qed.

Lemma AssertFail_Pass o err :
  AssertFail o err = Pass o ↔
  Error o = None ∧ Code o = 1 ∧ ReadStdout o = "" ∧
  strings.Contains (ReadStderr o) err = true.
Proof.
  unfold AssertFail. split.
  - intros H.
    apply bindT_Pass in H as [[] [H1 H]]. apply NoError_Pass in H1.
    apply bindT_Pass in H as [[] [H2 H]]. apply Equal_Pass in H2.
    apply bindT_Pass in H as [[] [H3 H]]. apply Empty_Pass in H3.
    apply bindT_Pass in H as [[] [H4 H]]. apply Contains_Pass in H4.
    repeat split; auto.
  - intros (H1 & H2 & H3 & H4).
    rewrite H1, H2, H3. unfold require.Contains.
    rewrite H4. reflexivity.
Qed.

Lemma AssertFail_same o o' err : AssertFail o err = Pass o' → o' = o.
Proof.
  unfold AssertFail. intros H.
  do 4 (apply bindT_Pass in H as [[] [_ H]]). inversion H. reflexivity.
Qed.

(** ** What a completed [RunWithStdin] did *)

Ltac unfold_M :=
  unfold mbind, M_bind, mret, M_ret, liftT, Logf, CommandContext in *; simpl in *.

Lemma RunWithStdin_run os td stdin args t bin outB errB :
  GetFilecoinBinary os = Ok bin →
  captured (commandOf os td stdin args t bin) outB errB →
  RunWithStdin os td stdin args t =
    (Pass (afterWait (mkOutput "" (splitArgs args) 0 None outB errB)
             (finalArgs td args)
             (waitErr (commandOf os td stdin args t bin))
             (ctxErr (commandOf os td stdin args t bin))),
     logged td args t).
Proof.
  unfold captured, commandOf, RunWithStdin, logged.
  intros Hbin (H1 & H2 & H3 & H4 & H5).
  unfold_M. rewrite Hbin. simpl. rewrite H1, H2, H3, H4, H5. reflexivity.
Qed.

Lemma RunWithStdin_Pass os td stdin args t o t' :
  RunWithStdin os td stdin args t = (Pass o, t') →
  ∃ bin outB errB,
    GetFilecoinBinary os = Ok bin ∧
    captured (commandOf os td stdin args t bin) outB errB ∧
    o = afterWait (mkOutput "" (splitArgs args) 0 None outB errB)
          (finalArgs td args)
          (waitErr (commandOf os td stdin args t bin))
          (ctxErr (commandOf os td stdin args t bin)) ∧
    t' = logged td args t.
Proof.
  unfold captured, commandOf, RunWithStdin, logged. unfold_M.
  destruct (GetFilecoinBinary os) as [bin|e]; simpl; [|discriminate].
  set (cmd := spawn os (spawned t) bin (finalArgs td args) stdin (cmdTimeout td)).
  destruct (stderrPipeErr cmd) eqn:H1; simpl; [discriminate|].
  destruct (stdoutPipeErr cmd) eqn:H2; simpl; [discriminate|].
  destruct (startErr cmd) eqn:H3; simpl; [discriminate|].
  destruct (stderrRead cmd) as [errB|] eqn:H4; simpl; [|discriminate].
  destruct (stdoutRead cmd) as [outB|] eqn:H5; simpl; [|discriminate].
  intros H. inversion H; subst. exists bin, outB, errB.
  repeat split; auto.
Qed.

(** Whatever happens, a command ends with code 0 or code 1. *)
Lemma afterWait_Code o final w c :
  Code o = 0 → Code (afterWait o final w c) = 0 ∨ Code (afterWait o final w c) = 1.
Proof.
  intros H. unfold afterWait. destruct w as [[]|]; simpl; auto.
Qed.

(** ** The Command Executor *)

(** C1, as stated, fails: a command can end with exit code 0 and a recorded
    invocation error.  [Wait] returns an error that is not an exit error, the
    [default] branch of the type switch stores it and leaves the code at 0. *)
Lemma RunWithStdin_code_zero_with_error :
  ∃ o, fst (RunWithStdin osBrokenPipe td0 (Some "data") ["client"; "import"] t0)
         = Pass o ∧
       Code o = 0 ∧ Error o = Some (PlainError "write |1: broken pipe").
Proof. eexists. repeat split. Qed.

(** C1, amended: for every Output that [RunWithStdin] (hence [Run]) returns,
    an exit code of 0 implies that the Error field holds exactly what waiting
    on the process returned, and that this is not an exit error: it is nil,
    or an invocation error of another kind.  In particular exit code 0
    implies a nil Error whenever the wait reported nil or an exit error. *)
Theorem RunWithStdin_code_zero os td stdin args t o :
  fst (RunWithStdin os td stdin args t) = Pass o →
  Code o = 0 →
  ∃ bin, GetFilecoinBinary os = Ok bin ∧
    Error o = waitErr (commandOf os td stdin args t bin) ∧
    (∀ st, waitErr (commandOf os td stdin args t bin) ≠ Some (ExitError st)) ∧
    (waitErr (commandOf os td stdin args t bin) = None → Error o = None).
Proof.
  destruct (RunWithStdin os td stdin args t) as [r t'] eqn:E. simpl.
  intros -> Hcode.
  apply RunWithStdin_Pass in E as (bin & outB & errB & Hbin & _ & -> & _).
  exists bin. split; [assumption|].
  destruct (waitErr (commandOf os td stdin args t bin)) as [[st| |c f a|f a]|];
    simpl in *; try discriminate; repeat split; congruence.
Qed.

Lemma RunWithStdin_code_zero_witness :
  ∃ bin, GetFilecoinBinary osBrokenPipe = Ok bin ∧
    Error (mkOutput "" ["client"; "import"] 0
             (Some (PlainError "write |1: broken pipe")) "QmData" "")
      = waitErr (commandOf osBrokenPipe td0 (Some "data") ["client"; "import"] t0 bin) ∧
    (∀ st, waitErr (commandOf osBrokenPipe td0 (Some "data") ["client"; "import"] t0 bin)
             ≠ Some (ExitError st)) ∧
    (waitErr (commandOf osBrokenPipe td0 (Some "data") ["client"; "import"] t0 bin) = None →
     Error (mkOutput "" ["client"; "import"] 0
              (Some (PlainError "write |1: broken pipe")) "QmData" "") = None).
Proof.
  apply (RunWithStdin_code_zero osBrokenPipe td0 (Some "data")
           ["client"; "import"] t0); reflexivity.
Defined.

(** C4: when the deadline elapses before the process exits, [os/exec] kills
    the process, so that [Wait] returns the process's own termination error
    (an exit error) and the context reports [DeadlineExceeded].  The returned
    Output then carries the deadline-exceeded error wrapping that termination
    error, and exit code 1; what was captured of both streams is kept. *)
Theorem RunWithStdin_deadline os td stdin args t bin outB errB st :
  GetFilecoinBinary os = Ok bin →
  captured (commandOf os td stdin args t bin) outB errB →
  waitErr (commandOf os td stdin args t bin) = Some (ExitError st) →
  ctxErr (commandOf os td stdin args t bin) = Some DeadlineExceeded →
  ∃ o, fst (RunWithStdin os td stdin args t) = Pass o ∧
    Error o = Some (Wrapf (ExitError st)
                      "context deadline exceeded for command: %q"
                      [strings.Join (finalArgs td args) " "]) ∧
    Code o = 1 ∧ stdout o = outB ∧ stderr o = errB.
Proof.
  intros Hbin Hcap Hwait Hctx.
  rewrite (RunWithStdin_run _ _ _ _ _ _ _ _ Hbin Hcap), Hwait, Hctx.
  eexists. split; [reflexivity|]. simpl. auto.
Qed.

Lemma RunWithStdin_deadline_witness :
  ∃ o, fst (RunWithStdin osKilled td0 None ["mining once"] t0) = Pass o ∧
    Error o = Some (Wrapf (ExitError "signal: killed")
                      "context deadline exceeded for command: %q"
                      [strings.Join (finalArgs td0 ["mining once"]) " "]) ∧
    Code o = 1 ∧ stdout o = "" ∧ stderr o = "Error: boom".
Proof.
  apply (RunWithStdin_deadline osKilled td0 None ["mining once"] t0
           "/usr/bin/go-filecoin");
    [reflexivity | repeat split | reflexivity | reflexivity].
Defined.

(** The arguments of the killed command, as spawned. *)
Example finalArgs_killed :
  finalArgs td0 ["mining once"] =
  ["mining"; "once"; "--repodir=/tmp/go-fil-test1"; "--cmdapiaddr=:3453"].
Proof. reflexivity. Qed.

(** ** AssertSuccess *)

(** C5, as stated, fails in its last part: when the invocation error is set,
    [require.NoError] is given the error alone, so the failure reports
    neither captured stream. *)
Lemma AssertSuccess_error_reports_no_stream :
  ∃ o f, AssertSuccess o = Fatal f ∧
    (ReadStderr o ∉ reported f) ∧ (ReadStdout o ∉ reported f).
Proof.
  exists (mkOutput "" ["id"] 0 (Some (PlainError "fork/exec: no such file"))
            "out" "err").
  eexists. split; [reflexivity|]. simpl. split; apply not_elem_of_nil.
Qed.

(** C5, amended: [AssertSuccess] passes exactly when the invocation error is
    nil, the exit code is 0 and stderr contains none of CRITICAL, ERROR,
    WARNING, "Error:"; in any other case the check fails.  A recorded
    invocation error is reported alone; a non-zero exit code or a forbidden
    marker is reported together with the captured stderr text.  The captured
    stdout is handed to no assertion. *)
Theorem AssertSuccess_spec o :
  (AssertSuccess o = Pass o ↔
     Error o = None ∧ Code o = 0 ∧ clean (ReadStderr o)) ∧
  (AssertSuccess o = Pass o ∨
   ∃ f, AssertSuccess o = Fatal f ∧
     ((∃ e, Error o = Some e ∧ f = NoErrorFailed e [] ∧ reported f = []) ∨
      (Error o = None ∧ ReadStderr o ∈ reported f ∧
       (f = EqualFailed 0 (Code o) [ReadStderr o] ∨
        ∃ m, m ∈ markers ∧ f = NotContainsFailed (ReadStderr o) m)))).
Proof.
  split; [apply AssertSuccess_Pass|].
  unfold AssertSuccess, require.Equal, require.NotContains, markers, ReadStderr.
  destruct o as [i a c [e|] so se]; simpl.
  { right. eexists. split; [reflexivity|]. left. eauto. }
  destruct c as [|c|c]; simpl.
  2,3: right; eexists; (split; [reflexivity|]); right;
       (split; [reflexivity|]); (split; [apply list_elem_of_here|]); auto.
  destruct (strings.Contains se "CRITICAL") eqn:H1; simpl.
  { right. eexists. split; [reflexivity|]. right.
    split; [reflexivity|]. split; [apply list_elem_of_here|].
    right. eexists. split; [|reflexivity]. set_solver. }
  destruct (strings.Contains se "ERROR") eqn:H2; simpl.
  { right. eexists. split; [reflexivity|]. right.
    split; [reflexivity|]. split; [apply list_elem_of_here|].
    right. eexists. split; [|reflexivity]. set_solver. }
  destruct (strings.Contains se "WARNING") eqn:H3; simpl.
  { right. eexists. split; [reflexivity|]. right.
    split; [reflexivity|]. split; [apply list_elem_of_here|].
    right. eexists. split; [|reflexivity]. set_solver. }
  destruct (strings.Contains se "Error:") eqn:H4; simpl.
  { right. eexists. split; [reflexivity|]. right.
    split; [reflexivity|]. split; [apply list_elem_of_here|].
    right. eexists. split; [|reflexivity]. set_solver. }
  left. reflexivity.
Qed.

Example AssertSuccess_warning :
  AssertSuccess (mkOutput "" ["id"] 0 None "{}" "12:01 WARNING low disk")
  = Fatal (NotContainsFailed "12:01 WARNING low disk" "WARNING").
Proof. reflexivity. Qed.

Example AssertSuccess_ok :
  ∀ o, o = mkOutput "" ["id"] 0 None "{}" "" → AssertSuccess o = Pass o.
Proof. intros o ->. reflexivity. Qed.

(** ** AssertFail *)

(** C6, as stated, fails: the command killed at its deadline has exit code 1,
    an empty stdout and the expected text on stderr, and [AssertFail] (hence
    [RunFail]) still rejects it, because its invocation error is set. *)
Lemma AssertFail_rejects_timeout :
  ∃ o, fst (Run osKilled td0 ["mining once"] t0) = Pass o ∧
    Code o = 1 ∧ ReadStdout o = "" ∧
    strings.Contains (ReadStderr o) "boom" = true ∧
    AssertFail o "boom" ≠ Pass o ∧
    (∀ o', fst (RunFail osKilled td0 "boom" ["mining once"] t0) ≠ Pass o').
Proof.
  eexists. split; [reflexivity|]. repeat split; discriminate.
Qed.

(** C6, amended: [AssertFail] passes exactly when the invocation error is
    nil, the exit code is 1, the captured stdout is empty and the captured
    stderr contains the expected substring; so every Output that [RunFail]
    returns has no invocation error, exit code 1 and an empty stdout. *)
Theorem AssertFail_spec os td args t o err :
  (AssertFail o err = Pass o ↔
     Error o = None ∧ Code o = 1 ∧ ReadStdout o = "" ∧
     strings.Contains (ReadStderr o) err = true) ∧
  (fst (RunFail os td err args t) = Pass o →
     Error o = None ∧ Code o = 1 ∧ ReadStdout o = "" ∧
     strings.Contains (ReadStderr o) err = true).
Proof.
  split; [apply AssertFail_Pass|].
  unfold RunFail. unfold_M.
  destruct (Run os td args t) as [[o1|f] t1]; simpl; [|discriminate].
  intros H. pose proof (AssertFail_same _ _ _ H) as ->.
  apply AssertFail_Pass. assumption.
Qed.

(** ** RunCommand *)

(** C10: [RunCommand] never reads [cmd]: whatever the command name, the
    binary is run with "init" followed by the options, which is what
    [RunInit] does. *)
Theorem RunCommand_ignores_cmd os cmd opts :
  RunCommand os cmd opts = RunInit os opts ∧
  RunCommand os cmd opts =
    match GetFilecoinBinary os with
    | Err err => (None, Some err)
    | Ok filecoinBin =>
        (Some (fst (CombinedOutput os filecoinBin ("init" :: opts))),
         snd (CombinedOutput os filecoinBin ("init" :: opts)))
    end.
Proof.
  split; [reflexivity|]. unfold RunCommand.
  destruct (GetFilecoinBinary os); [|reflexivity].
  destruct (CombinedOutput os a ("init" :: opts)); reflexivity.
Qed.

(** The binary sees the same arguments for "daemon" as for "init". *)
Example RunCommand_daemon :
  let os := mkOS (Ok "go-filecoin") (fun _ _ _ _ _ => ran "" "" None None)
              (fun bin argv => (strings.Join (bin :: argv) " ", None)) in
  RunCommand os "daemon" ["--repodir=/r"] = (Some "go-filecoin init --repodir=/r", None).
Proof. reflexivity. Qed.

(** ** The Liveness Prober *)

Lemma tryAPICheck_eq net json td w :
  tryAPICheck net json td w =
  (probe net json td (requests w), mkProbing (S (requests w)) (slept w)).
Proof.
  unfold probe, tryAPICheck. simpl.
  destruct (httpGet net (requests w) (apiURL td)); [|reflexivity].
  destruct (decodeObject json a); [|reflexivity].
  destruct (a0 !! "ID"); reflexivity.
Qed.

(** The loop stops at the first probe that succeeds: [k] failed probes, each
    followed by a 100ms sleep, then one successful probe and no more. *)
Lemma WaitForAPI_loop_success n net json td w k :
  (k < n)%nat →
  (∀ j, (j < k)%nat → probe net json td (requests w + j) ≠ None) →
  probe net json td (requests w + k) = None →
  WaitForAPI_loop n net json td w =
  (None, mkProbing (requests w + k + 1) (slept w + Z.of_nat k * (Millisecond * 100))).
Proof.
  revert w k. induction n as [|n IH]; intros w k Hk Hfail Hok; [lia|].
  simpl. rewrite tryAPICheck_eq.
  destruct k as [|k].
  - rewrite Nat.add_0_r in Hok. rewrite Hok. f_equal.
    destruct w as [r s0]; simpl. f_equal; lia.
  - destruct (probe net json td (requests w)) eqn:E.
    2:{ exfalso. apply (Hfail 0%nat); [lia|]. rewrite Nat.add_0_r. exact E. }
    rewrite (IH _ k); simpl.
    + f_equal. f_equal; lia.
    + lia.
    + intros j Hj. rewrite <- Nat.add_succ_r. apply Hfail. lia.
    + rewrite <- Nat.add_succ_r. exact Hok.
Qed.

(** When every probe fails the loop makes exactly [n] probes and sleeps [n]
    times 100ms. *)
Lemma WaitForAPI_loop_failure n net json td w :
  (∀ j, (j < n)%nat → probe net json td (requests w + j) ≠ None) →
  WaitForAPI_loop n net json td w =
  (Some gaveUp,
   mkProbing (requests w + n) (slept w + Z.of_nat n * (Millisecond * 100))).
Proof.
  revert w. induction n as [|n IH]; intros w Hfail.
  - simpl. destruct w as [r s0]; simpl. unfold gaveUp. f_equal. f_equal; lia.
  - simpl. rewrite tryAPICheck_eq.
    destruct (probe net json td (requests w)) eqn:E.
    2:{ exfalso. apply (Hfail 0%nat); [lia|]. rewrite Nat.add_0_r. exact E. }
    rewrite IH; simpl.
    + f_equal. f_equal; lia.
    + intros j Hj. rewrite <- Nat.add_succ_r. apply Hfail. lia.
Qed.

(** Never more than [n] probes, whatever the node answers. *)
Lemma WaitForAPI_loop_bound n net json td w :
  (requests (snd (WaitForAPI_loop n net json td w)) ≤ requests w + n)%nat.
Proof.
  revert w. induction n as [|n IH]; intros w; simpl; [lia|].
  rewrite tryAPICheck_eq. destruct (probe net json td (requests w)); simpl; [|lia].
  etrans; [apply IH|]. simpl. lia.
Qed.

(** C2: the code at the failing input.  When none of the 100 probes succeeds,
    [WaitForAPI] has issued 100 requests and slept 100 times 100ms, ten
    seconds in all, and the error it returns names a period of 20 seconds. *)
Theorem WaitForAPI_exhausted net json td w :
  (∀ j, (j < 100)%nat → probe net json td (requests w + j) ≠ None) →
  WaitForAPI net json td w =
    (Some (Errorf
       "filecoin node failed to come online in given time period (20 seconds)" []),
     mkProbing (requests w + 100) (slept w + 10 * Second)) ∧
  100 * (Millisecond * 100) = 10 * Second.
Proof.
  intros H. split; [|reflexivity]. unfold WaitForAPI.
  rewrite (WaitForAPI_loop_failure 100 net json td w H). reflexivity.
Qed.

Lemma WaitForAPI_exhausted_witness :
  WaitForAPI netRefused json0 td0 (mkProbing 0 0) =
    (Some (Errorf
       "filecoin node failed to come online in given time period (20 seconds)" []),
     mkProbing 100 (10 * Second)) ∧
  100 * (Millisecond * 100) = 10 * Second.
Proof.
  apply (WaitForAPI_exhausted netRefused json0 td0 (mkProbing 0 0)).
  intros j Hj. discriminate.
Defined.


Example probe_refused :
  probe netRefused json0 td0 0 =
  Some (PlainError "dial tcp 127.0.0.1:3453: connection refused").
Proof. reflexivity. Qed.

Example probe_no_ID :
  probe (mkNet (fun _ _ => Ok "{}")) json0 td0 0 =
  Some (Errorf "liveness check failed: ID field not present in output" []).
Proof. reflexivity. Qed.

Example probe_garbage :
  probe (mkNet (fun _ _ => Ok "<html>")) json0 td0 0 =
  Some (Errorf "liveness check failed: %s" [PlainError "invalid character"]).
Proof. reflexivity. Qed.

(** The node comes up at its fourth probe: four requests, three sleeps. *)
Example WaitForAPI_fourth :
  WaitForAPI
    (mkNet (fun k url =>
       if (k <? 3)%nat then Err (PlainError "connection refused")
       else if String.eqb url "http://127.0.0.1:3453/api/id" then Ok "{ID}"
       else Err (PlainError "not found")))
    json0 td0 (mkProbing 0 0)
  = (None, mkProbing 4 (300 * Millisecond)).
Proof. vm_compute. reflexivity. Qed.

(** ** Shutdown *)

Lemma within_refl path : within path path = true.
Proof. unfold within. rewrite String.eqb_refl. reflexivity. Qed.

Lemma Signalled_dirs proc sig h : dirs (snd (Signalled proc sig h)) = dirs h.
Proof. unfold Signalled. destruct (signal proc sig); reflexivity. Qed.

(** C3: the code at the failing input.  The specification asks that every shutdown
    path that terminates the process is followed by the deletion of the
    repository directory, and that a daemon without a repository directory
    makes shutdown fail loudly.  The graceful interrupt [ShutdownEasy] and
    the terminating [ShutdownSuccess] deliver their signal and return with
    the repository directory still in place; on a daemon without a repository
    directory they return normally, the test not even marked as failed. *)
Lemma ShutdownEasy_keeps_repo :
  fst (ShutdownEasy procOk td0 host0) = Returned ∧
  delivered (snd (ShutdownEasy procOk td0 host0)) = [SIGINT] ∧
  repoDir td0 ∈ dirs (snd (ShutdownEasy procOk td0 host0)) ∧
  fst (ShutdownSuccess procOk td0 host0) = Returned ∧
  delivered (snd (ShutdownSuccess procOk td0 host0)) = [SIGTERM] ∧
  repoDir td0 ∈ dirs (snd (ShutdownSuccess procOk td0 host0)) ∧
  repoDir tdNoRepo = "" ∧
  ShutdownEasy procOk tdNoRepo host0 = (Returned, mkHost (dirs host0) [SIGINT] false) ∧
  ShutdownSuccess procOk tdNoRepo host0 = (Returned, mkHost (dirs host0) [SIGTERM] false).
Proof.
  repeat split; simpl; apply elem_of_singleton; reflexivity.
Qed.

(** The three paths side by side.  Once its signal is delivered, [Shutdown]
    panics on a daemon without a repository directory and otherwise hands
    the directory to [os.RemoveAll], keeping what that call leaves and
    dropping its error.  [ShutdownSuccess] and [ShutdownEasy] contain neither
    step: they never touch a directory. *)
Lemma Shutdown_siblings disk proc td h :
  (signal proc SIGTERM = None →
     (repoDir td ≠ "" →
        Shutdown disk proc td h =
          (Returned,
           mkHost (fst (removeAll disk (repoDir td) (dirs h)))
                  (delivered h ++ [SIGTERM]) (failed h))) ∧
     (repoDir td = "" →
        Shutdown disk proc td h =
          (Panic "testdaemon had no repodir set",
           mkHost (dirs h) (delivered h ++ [SIGTERM]) (failed h)))) ∧
  dirs (snd (ShutdownSuccess proc td h)) = dirs h ∧
  dirs (snd (ShutdownEasy proc td h)) = dirs h ∧
  (∀ out, daemonStderr proc = Ok out →
     fst (ShutdownSuccess proc td h) = Returned ∧
     fst (ShutdownEasy proc td h) = Returned).
Proof.
  split; [intros Hsig|].
  - unfold Shutdown, Signalled. rewrite Hsig.
    destruct (decide (repoDir td = "")) as [Hnone|Hsome]; simpl.
    + split; [intros Hc; contradiction|]. intros _. reflexivity.
    + split; [|intros Hc; contradiction]. intros _. reflexivity.
  - split; [|split].
    + unfold ShutdownSuccess.
      pose proof (Signalled_dirs proc SIGTERM h) as Hd.
      destruct (Signalled proc SIGTERM h) as [err h1]. simpl in Hd.
      destruct (daemonStderr proc); simpl; exact Hd.
    + unfold ShutdownEasy.
      pose proof (Signalled_dirs proc SIGINT h) as Hd.
      destruct (Signalled proc SIGINT h) as [err h1]. simpl in Hd.
      destruct (daemonStderr proc); simpl; exact Hd.
    + intros out Hout. unfold ShutdownSuccess, ShutdownEasy.
      destruct (Signalled proc SIGTERM h), (Signalled proc SIGINT h).
      rewrite Hout. split; reflexivity.
Qed.

(** On a disk where the removal goes through the directory is gone. *)
Example Shutdown_removes :
  fst (Shutdown diskPlain procOk td0 host0) = Returned ∧
  dirs (snd (Shutdown diskPlain procOk td0 host0)) = ∅.
Proof.
  split; [reflexivity|]. apply set_eq. intros q. simpl.
  rewrite (elem_of_filter (fun q => within "/tmp/go-fil-test1" q = false)),
    elem_of_singleton.
  split.
  - intros [H ->]. rewrite within_refl in H. discriminate.
  - intros H. exfalso. revert H. apply not_elem_of_empty.
Qed.

(** When the removal fails [Shutdown] still returns normally, the directory
    left behind and the test not marked as failed. *)
Example Shutdown_removal_fails :
  Shutdown diskBusy procOk td0 host0
  = (Returned, mkHost (dirs host0) [SIGTERM] false).
Proof. reflexivity. Qed.

Example Shutdown_no_repo :
  Shutdown diskPlain procOk tdNoRepo host0
  = (Panic "testdaemon had no repodir set", mkHost (dirs host0) [SIGTERM] false).
Proof. reflexivity. Qed.

(** ** HeadState: sorted identifier sets *)

Section CidSets.

Import types.

Lemma before_trans a b c : before a b → before b c → before a c.
Proof.
  intros [Hab Nab] [Hbc Nbc]. split; [by etrans|].
  intros ->. apply Nab. by apply (anti_symm String.le).
Qed.

Lemma not_le_before a b : ¬ String.le a b → before b a.
Proof.
  intros H. destruct (total String.le a b) as [|Hba]; [done|].
  split; [done|]. intros ->. done.
Qed.

Lemma elem_of_insert id l c : c ∈ insert id l ↔ c = id ∨ c ∈ l.
Proof.
  induction l as [|x l IH]; simpl.
  - rewrite list_elem_of_singleton. set_solver.
  - destruct (decide (id = x)) as [->|Hne]; [set_solver|].
    destruct (decide (String.le id x)); [set_solver|].
    rewrite !elem_of_cons, IH. tauto.
Qed.

Lemma insert_sorted id l :
  StronglySorted before l → StronglySorted before (insert id l).
Proof.
  induction 1 as [|x l Hl IH Hx]; simpl.
  - repeat constructor.
  - destruct (decide (id = x)) as [->|Hne]; [by constructor|].
    destruct (decide (String.le id x)) as [Hle|Hnle].
    + constructor; [by constructor|].
      constructor; [done|].
      eapply Forall_impl; [exact Hx|]. intros y Hy.
      by apply before_trans with x.
    + constructor; [done|].
      apply Forall_forall. intros y Hy%elem_of_insert.
      destruct Hy as [->|Hy]; [by apply not_le_before|].
      by eapply Forall_forall in Hx.
Qed.

Lemma sorted_NoDup l : StronglySorted before l → NoDup l.
Proof.
  induction 1 as [|x l Hl IH Hx]; constructor; [|done].
  intros Hin. eapply Forall_forall in Hx; [|exact Hin]. by destruct Hx.
Qed.

Lemma before_anti_symm : AntiSymm (=) before.
Proof. intros a b [Hab _] [Hba _]. by apply (anti_symm String.le). Qed.

(** Two sorted sequences with the same members are the same sequence. *)
Lemma sorted_ext l1 l2 :
  StronglySorted before l1 → StronglySorted before l2 →
  (∀ c, c ∈ l1 ↔ c ∈ l2) → l1 = l2.
Proof.
  intros H1 H2 Hm.
  apply (@StronglySorted_unique _ before before_anti_symm); [done..|].
  apply NoDup_Permutation; auto using sorted_NoDup.
Qed.

Lemma equalCids_eq l1 l2 : equalCids l1 l2 = true ↔ l1 = l2.
Proof.
  revert l2. induction l1 as [|x l1 IH]; intros [|y l2]; simpl; try done.
  rewrite andb_true_iff, bool_decide_eq_true, IH. split.
  - by intros [-> ->].
  - intros [= -> ->]. done.
Qed.

(** The loop that fills a set, from any starting set. *)
Lemma elem_of_fill blks set c :
  c ∈ s (foldl (fun set blk => Add set (Cid_of blk)) set blks) ↔
  c ∈ s set ∨ c ∈ Cid_of <$> blks.
Proof.
  revert set. induction blks as [|b blks IH]; intros set; simpl.
  - set_solver.
  - rewrite IH. simpl. rewrite elem_of_insert. set_solver.
Qed.

Lemma fill_sorted blks set :
  StronglySorted before (s set) →
  StronglySorted before (s (foldl (fun set blk => Add set (Cid_of blk)) set blks)).
Proof.
  revert set. induction blks as [|b blks IH]; intros set H; simpl; [done|].
  apply IH. simpl. by apply insert_sorted.
Qed.

Lemma elem_of_headOf blks c : c ∈ s (headOf blks) ↔ c ∈ Cid_of <$> blks.
Proof. unfold headOf. rewrite elem_of_fill. simpl. set_solver. Qed.

Lemma headOf_sorted blks : StronglySorted before (s (headOf blks)).
Proof. apply fill_sorted. constructor. Qed.

End CidSets.

(** C8: the heads the coordinator compares are equal exactly when they were
    built from the same set of block identifiers; so two block lists whose
    identifiers are a permutation of one another give equal heads, whatever
    the order (and the repetitions) in which the blocks are listed. *)
Theorem headOf_Equals_set_equality (blks1 blks2 : list types.Block) :
  (types.Cid_of <$> blks1 ≡ₚ types.Cid_of <$> blks2 →
     types.Equals (headOf blks1) (headOf blks2) = true) ∧
  (types.Equals (headOf blks1) (headOf blks2) = true ↔
     ∀ c, c ∈ types.Cid_of <$> blks1 ↔ c ∈ types.Cid_of <$> blks2).
Proof.
  assert (Hiff : types.Equals (headOf blks1) (headOf blks2) = true ↔
            ∀ c, c ∈ types.Cid_of <$> blks1 ↔ c ∈ types.Cid_of <$> blks2).
  { unfold types.Equals. rewrite equalCids_eq. split.
    - intros Heq c. rewrite <- !elem_of_headOf, Heq. done.
    - intros Hm. apply sorted_ext; [apply headOf_sorted..|].
      intros c. rewrite !elem_of_headOf. apply Hm. }
  split; [|exact Hiff].
  intros Hp. apply Hiff. intros c. by rewrite Hp.
Qed.

Example headOf_order :
  headOf [types.mkBlock "QmB"; types.mkBlock "QmA"; types.mkBlock "QmB"]
  = types.mkSortedCidSet ["QmA"; "QmB"] ∧
  types.Equals (headOf [types.mkBlock "QmB"; types.mkBlock "QmA"])
               (headOf [types.mkBlock "QmA"; types.mkBlock "QmB"]) = true ∧
  types.Equals (headOf [types.mkBlock "QmA"])
               (headOf [types.mkBlock "QmA"; types.mkBlock "QmB"]) = false.
Proof. vm_compute. auto. Qed.

(** ** The Convergence Coordinator *)

Lemma RunWithStdin_state os td stdin args t bin :
  GetFilecoinBinary os = Ok bin →
  snd (RunWithStdin os td stdin args t) = logged td args t.
Proof.
  intros Hbin. unfold RunWithStdin, logged. unfold_M. rewrite Hbin. simpl.
  set (cmd := spawn os (spawned t) bin (finalArgs td args) stdin (cmdTimeout td)).
  destruct (stderrPipeErr cmd); simpl; [reflexivity|].
  destruct (stdoutPipeErr cmd); simpl; [reflexivity|].
  destruct (startErr cmd); simpl; [reflexivity|].
  destruct (stderrRead cmd); simpl; [|reflexivity].
  destruct (stdoutRead cmd); simpl; reflexivity.
Qed.

Lemma GetChainHead_state os json td t bin :
  GetFilecoinBinary os = Ok bin →
  snd (GetChainHead os json td t) = logged td chainLs t.
Proof.
  intros Hbin. unfold GetChainHead, RunSuccess, Run.
  pose proof (RunWithStdin_state os td None chainLs t bin Hbin) as Hs.
  unfold_M.
  destruct (RunWithStdin os td None chainLs t) as [[o|f] t1]; simpl in *; [|exact Hs].
  destruct (AssertSuccess o) as [o'|f]; simpl; [|exact Hs].
  destruct (MustUnmarshalChain json (ReadStdout o')) as [[|b bc]|f]; simpl; exact Hs.
Qed.

Lemma logged_logs td t : logs (logged td chainLs t) = (logs t ++ [runLine td])%list.
Proof. reflexivity. Qed.

(** While it waits, the coordinator only sees [chain ls] run on peers. *)
Lemma await_logs os json expHead peers wait bin :
  GetFilecoinBinary os = Ok bin →
  ∀ sched st t, ∃ polls,
    logs (snd (await os json expHead peers st wait sched t)) = (logs t ++ polls)%list ∧
    Forall (fun e => ∃ p, p ∈ peers ∧ e = runLine p) polls.
Proof.
  intros Hbin. induction sched as [|[at_ i] sched IH]; intros st t; simpl.
  - exists []. rewrite app_nil_r. destruct (forallb isDone st); auto.
  - destruct (forallb isDone st); [exists []; by rewrite app_nil_r|].
    destruct (decide (wait ≤ at_)); [exists []; by rewrite app_nil_r|].
    destruct (peers !! i) as [p|] eqn:Hp; [|apply IH].
    destruct (st !! i) as [[| |f]|]; try apply IH.
    unfold pollOnce.
    pose proof (GetChainHead_state os json p t bin Hbin) as Hs.
    destruct (GetChainHead os json p t) as [[blks|f] t1]; simpl in Hs; subst t1.
    + destruct (types.Equals expHead (headOf blks));
        match goal with |- context [await _ _ _ _ ?st' _ _ ?t'] =>
          destruct (IH st' t') as (polls & -> & Hpolls) end;
        exists (runLine p :: polls); rewrite logged_logs, <- app_assoc;
        (split; [reflexivity|]); constructor; eauto using list_elem_of_lookup_2.
    + match goal with |- context [await _ _ _ _ ?st' _ _ ?t'] =>
          destruct (IH st' t') as (polls & -> & Hpolls) end.
      exists (runLine p :: polls). rewrite logged_logs, <- app_assoc.
      split; [reflexivity|]. constructor; eauto using list_elem_of_lookup_2.
Qed.

(** C7: [MustHaveChainHeadBy] runs [chain ls] on the reference node exactly
    once, before anything else: the test log grows by the reference's line
    followed only by lines of peers, so the reference (when it is not itself
    among the peers) is never read again; every peer is compared against the
    head built from that one read; and the call ends either by returning
    normally, with no value, or by failing the test. *)
Theorem MustHaveChainHeadBy_reads_reference_once os json td wait peers sched t bin :
  GetFilecoinBinary os = Ok bin →
  ∃ polls,
    logs (snd (MustHaveChainHeadBy os json td wait peers sched t))
      = (logs t ++ runLine td :: polls)%list ∧
    Forall (fun e => ∃ p, p ∈ peers ∧ e = runLine p) polls ∧
    ((∀ p, p ∈ peers → runLine p ≠ runLine td) → runLine td ∉ polls) ∧
    (∀ expHeadBlks, fst (GetChainHead os json td t) = Pass expHeadBlks →
       MustHaveChainHeadBy os json td wait peers sched t =
       await os json (headOf expHeadBlks) peers
         (replicate (List.length peers) Polling) wait sched (logged td chainLs t)) ∧
    (fst (MustHaveChainHeadBy os json td wait peers sched t) = Pass tt ∨
     ∃ f, fst (MustHaveChainHeadBy os json td wait peers sched t) = Fatal f).
Proof.
  intros Hbin.
  assert (Hlast : ∀ r : T unit * Test, fst r = Pass tt ∨ ∃ f, fst r = Fatal f).
  { intros [[[]|f] t']; simpl; eauto. }
  assert (Hnot : ∀ polls,
            Forall (fun e => ∃ p, p ∈ peers ∧ e = runLine p) polls →
            (∀ p, p ∈ peers → runLine p ≠ runLine td) → runLine td ∉ polls).
  { intros polls Hall Hne Hin. eapply Forall_forall in Hall; [|exact Hin].
    destruct Hall as (p & Hp & Heq). by apply (Hne p). }
  unfold MustHaveChainHeadBy.
  pose proof (GetChainHead_state os json td t bin Hbin) as Hs.
  destruct (GetChainHead os json td t) as [[blks|f] t1]; simpl in Hs; subst t1.
  - destruct (await_logs os json (headOf blks) peers wait bin Hbin sched
                (replicate (List.length peers) Polling) (logged td chainLs t))
      as (polls & Hlogs & Hpolls).
    exists polls. rewrite Hlogs, logged_logs, <- app_assoc.
    split; [reflexivity|]. split; [exact Hpolls|]. split; [by apply Hnot|].
    split; [|apply Hlast]. intros blks' [= ->]. reflexivity.
  - exists []. simpl.
    split; [reflexivity|]. split; [constructor|].
    split; [intros _; apply not_elem_of_nil|].
    split; [intros blks' [=]|]. right. by exists f.
Qed.

Lemma MustHaveChainHeadBy_reads_reference_once_witness :
  ∃ polls,
    logs (snd (MustHaveChainHeadBy osCatchUp jsonLines td0 Second [td1]
                 [(100 * Millisecond, 0%nat); (200 * Millisecond, 0%nat)] t0))
      = (logs t0 ++ runLine td0 :: polls)%list ∧
    Forall (fun e => ∃ p, p ∈ [td1] ∧ e = runLine p) polls ∧
    ((∀ p, p ∈ [td1] → runLine p ≠ runLine td0) → runLine td0 ∉ polls) ∧
    (∀ expHeadBlks, fst (GetChainHead osCatchUp jsonLines td0 t0) = Pass expHeadBlks →
       MustHaveChainHeadBy osCatchUp jsonLines td0 Second [td1]
         [(100 * Millisecond, 0%nat); (200 * Millisecond, 0%nat)] t0 =
       await osCatchUp jsonLines (headOf expHeadBlks) [td1]
         (replicate (List.length [td1]) Polling) Second
         [(100 * Millisecond, 0%nat); (200 * Millisecond, 0%nat)]
         (logged td0 chainLs t0)) ∧
    (fst (MustHaveChainHeadBy osCatchUp jsonLines td0 Second [td1]
            [(100 * Millisecond, 0%nat); (200 * Millisecond, 0%nat)] t0) = Pass tt ∨
     ∃ f, fst (MustHaveChainHeadBy osCatchUp jsonLines td0 Second [td1]
                 [(100 * Millisecond, 0%nat); (200 * Millisecond, 0%nat)] t0) = Fatal f).
Proof.
  apply (MustHaveChainHeadBy_reads_reference_once osCatchUp jsonLines td0 Second
           [td1] [(100 * Millisecond, 0%nat); (200 * Millisecond, 0%nat)] t0
           "/usr/bin/go-filecoin").
  reflexivity.
Defined.

Example MustHaveChainHeadBy_catch_up :
  MustHaveChainHeadBy osCatchUp jsonLines td0 Second [td1]
    [(100 * Millisecond, 0%nat); (200 * Millisecond, 0%nat)] t0
  = (Pass tt, mkTest [runLine td0; runLine td1; runLine td1] 3).
Proof. vm_compute. reflexivity. Qed.

(** The reference mines on after its head was read: the peer follows it to
    the new head [QmB], and the check still waits for the old head [QmA]. *)
Example MustHaveChainHeadBy_stale_reference :
  MustHaveChainHeadBy
    (answers (fun n _ => match n with 0%nat => "QmA" | _ => "QmB" end))
    jsonLines td0 Second [td1]
    [(100 * Millisecond, 0%nat); (500 * Millisecond, 0%nat); (Second, 0%nat)] t0
  = (Fatal timeout, mkTest [runLine td0; runLine td1; runLine td1] 3).
Proof. vm_compute. reflexivity. Qed.

(** No peers: nothing to wait for. *)
Example MustHaveChainHeadBy_no_peers :
  fst (MustHaveChainHeadBy osCatchUp jsonLines td0 0 [] [] t0) = Pass tt.
Proof. reflexivity. Qed.

(** * Further properties of the harness *)

(** ** Splitting and joining arguments *)

Lemma append_cons x a b : String x a +:+ b = String x (a +:+ b).
Proof. reflexivity. Qed.

Lemma append_nil b : "" +:+ b = b.
Proof. reflexivity. Qed.

Lemma Contains_cons_char x a c :
  strings.Contains (String x a) (String c "") =
  Ascii.eqb x c || strings.Contains a (String c "").
Proof.
  simpl. destruct (ascii_dec c x) as [->|Hne].
  - rewrite Ascii.eqb_refl. destruct a; reflexivity.
  - destruct (Ascii.eqb_spec x c) as [->|_]; [contradiction|reflexivity].
Qed.

Lemma Contains_cons_false x a c :
  strings.Contains (String x a) (String c "") = false →
  Ascii.eqb x c = false ∧ strings.Contains a (String c "") = false.
Proof. rewrite Contains_cons_char. apply orb_false_elim. Qed.

Lemma SplitChar_nosep a c :
  strings.Contains a (String c "") = false → strings.SplitChar a c = [a].
Proof.
  induction a as [|x a IH]; [reflexivity|].
  intros [Hx Ha]%Contains_cons_false. simpl. rewrite Hx, (IH Ha). reflexivity.
Qed.

Lemma SplitChar_app a c rest :
  strings.Contains a (String c "") = false →
  strings.SplitChar (a +:+ String c rest) c = a :: strings.SplitChar rest c.
Proof.
  induction a as [|x a IH].
  - intros _. rewrite append_nil. simpl. rewrite Ascii.eqb_refl. reflexivity.
  - intros [Hx Ha]%Contains_cons_false. rewrite append_cons. simpl.
    rewrite Hx, (IH Ha). reflexivity.
Qed.

(** Joining with a space and splitting again gives the arguments back. *)
Lemma SplitChar_Join args :
  args ≠ [] → Forall noSpace args →
  strings.SplitChar (strings.Join args " ") " "%char = args.
Proof.
  unfold strings.Join.
  induction args as [|a args IH]; intros Hne Hall; [done|].
  apply Forall_cons in Hall as [Ha Hall].
  destruct args as [|b args].
  - simpl. by apply SplitChar_nosep.
  - change (String.concat " " (a :: b :: args))
      with (a +:+ String " "%char (String.concat " " (b :: args))).
    rewrite (SplitChar_app a " "%char _ Ha), IH; done.
Qed.

(** Splitting at a character and joining with it gives the text back. *)
Lemma Join_SplitChar a c :
  strings.Join (strings.SplitChar a c) (String c "") = a.
Proof.
  unfold strings.Join. induction a as [|x a IH]; [reflexivity|]. simpl.
  destruct (Ascii.eqb_spec x c) as [->|Hne].
  - destruct (strings.SplitChar a c) as [|h t] eqn:E.
    + simpl in IH. subst a. discriminate E.
    + change (String.concat (String c "") ("" :: h :: t))
        with (String c (String.concat (String c "") (h :: t))).
      by rewrite IH.
  - destruct (strings.SplitChar a c) as [|h t] eqn:E.
    + simpl in IH. subst a. discriminate E.
    + destruct t as [|h' t]; simpl in *; by rewrite <- IH.
Qed.

Lemma RunWithStdin_splitArgs os td stdin args1 args2 t :
  splitArgs args1 = splitArgs args2 →
  RunWithStdin os td stdin args1 t = RunWithStdin os td stdin args2 t.
Proof. intros H. unfold RunWithStdin, finalArgs. rewrite H. reflexivity. Qed.

(** X1: a command given as one space-separated string is the command given
    argument by argument, provided no argument holds a space. *)
Theorem RunWithStdin_joined_args os td stdin args t :
  args ≠ [] → Forall noSpace args →
  RunWithStdin os td stdin [strings.Join args " "] t =
  RunWithStdin os td stdin args t.
Proof.
  intros Hne Hall. apply RunWithStdin_splitArgs.
  change (splitArgs [strings.Join args " "])
    with (strings.SplitChar (strings.Join args " ") " "%char).
  rewrite (SplitChar_Join args Hne Hall).
  destruct args as [|a [|b args]]; [done| |reflexivity].
  simpl. symmetry. apply SplitChar_nosep.
  by apply Forall_cons in Hall as [Ha _].
Qed.

Lemma RunWithStdin_joined_args_witness :
  RunWithStdin osCatchUp td0 None [strings.Join ["chain"; "ls"; "--enc=json"] " "] t0 =
  RunWithStdin osCatchUp td0 None ["chain"; "ls"; "--enc=json"] t0.
Proof.
  apply (RunWithStdin_joined_args osCatchUp td0 None ["chain"; "ls"; "--enc=json"] t0).
  - discriminate.
  - repeat constructor.
Defined.

(** ** Exit codes and the success and failure checks *)

(** X2: the exit code of an Output is normalised: it is 1 exactly when waiting
    on the process returned an exit error (timeout included) and 0 otherwise;
    the Output holds what was read from both streams however the command
    ended, and its arguments are the command's own, without the two flags
    the harness appends. *)
Theorem RunWithStdin_code_normalised os td stdin args t o :
  fst (RunWithStdin os td stdin args t) = Pass o →
  ∃ bin, GetFilecoinBinary os = Ok bin ∧
    (Code o = 1 ↔ ∃ st, waitErr (commandOf os td stdin args t bin) = Some (ExitError st)) ∧
    (Code o = 0 ∨ Code o = 1) ∧
    stdoutRead (commandOf os td stdin args t bin) = Ok (stdout o) ∧
    stderrRead (commandOf os td stdin args t bin) = Ok (stderr o) ∧
    Args o = splitArgs args ∧
    finalArgs td args =
      (Args o ++ ["--repodir=" +:+ repoDir td; "--cmdapiaddr=" +:+ cmdAddr td])%list.
Proof.
  destruct (RunWithStdin os td stdin args t) as [r t'] eqn:E. simpl. intros ->.
  apply RunWithStdin_Pass in E as (bin & outB & errB & Hbin & Hcap & -> & _).
  destruct Hcap as (_ & _ & _ & Herr & Hout).
  exists bin. split; [assumption|].
  destruct (waitErr (commandOf os td stdin args t bin)) as [[st| | |]|]; simpl.
  - split; [split; eauto|]. auto.
  - split; [split; [discriminate|intros [st' Hst]; discriminate Hst]|]. auto.
  - split; [split; [discriminate|intros [st' Hst]; discriminate Hst]|]. auto.
  - split; [split; [discriminate|intros [st' Hst]; discriminate Hst]|]. auto.
  - split; [split; [discriminate|intros [st' Hst]; discriminate Hst]|]. auto.
Qed.

Lemma RunWithStdin_code_normalised_witness :
  ∃ bin, GetFilecoinBinary osKilled = Ok bin ∧
    (Code (mkOutput "" ["mining"; "once"] 1
             (Some (Wrapf (ExitError "signal: killed")
                      "context deadline exceeded for command: %q"
                      [strings.Join (finalArgs td0 ["mining once"]) " "]))
             "" "Error: boom") = 1 ↔
     ∃ st, waitErr (commandOf osKilled td0 None ["mining once"] t0 bin)
             = Some (ExitError st)) ∧
    (Code (mkOutput "" ["mining"; "once"] 1
             (Some (Wrapf (ExitError "signal: killed")
                      "context deadline exceeded for command: %q"
                      [strings.Join (finalArgs td0 ["mining once"]) " "]))
             "" "Error: boom") = 0 ∨
     Code (mkOutput "" ["mining"; "once"] 1
             (Some (Wrapf (ExitError "signal: killed")
                      "context deadline exceeded for command: %q"
                      [strings.Join (finalArgs td0 ["mining once"]) " "]))
             "" "Error: boom") = 1) ∧
    stdoutRead (commandOf osKilled td0 None ["mining once"] t0 bin) = Ok "" ∧
    stderrRead (commandOf osKilled td0 None ["mining once"] t0 bin) = Ok "Error: boom" ∧
    ["mining"; "once"] = splitArgs ["mining once"] ∧
    finalArgs td0 ["mining once"] =
      (["mining"; "once"] ++
       ["--repodir=" +:+ repoDir td0; "--cmdapiaddr=" +:+ cmdAddr td0])%list.
Proof.
  apply (RunWithStdin_code_normalised osKilled td0 None ["mining once"] t0).
  reflexivity.
Defined.

Lemma RunSuccess_Run os td args t o :
  fst (RunSuccess os td args t) = Pass o ↔
  fst (RunWithStdin os td None args t) = Pass o ∧ AssertSuccess o = Pass o.
Proof.
  unfold RunSuccess, Run. unfold_M.
  destruct (RunWithStdin os td None args t) as [[o1|f] t1]; simpl.
  - split.
    + intros H. pose proof (AssertSuccess_same _ _ H) as ->. auto.
    + intros [[= ->] H]. exact H.
  - split; [discriminate|]. intros [[=] _].
Qed.

Lemma RunFail_Run os td err args t o :
  fst (RunFail os td err args t) = Pass o ↔
  fst (RunWithStdin os td None args t) = Pass o ∧ AssertFail o err = Pass o.
Proof.
  unfold RunFail, Run. unfold_M.
  destruct (RunWithStdin os td None args t) as [[o1|f] t1]; simpl.
  - split.
    + intros H. pose proof (AssertFail_same _ _ _ H) as ->. auto.
    + intros [[= ->] H]. exact H.
  - split; [discriminate|]. intros [[=] _].
Qed.

Lemma RunWithStdin_fst_Pass os td stdin args t o :
  fst (RunWithStdin os td stdin args t) = Pass o ↔
  ∃ bin outB errB,
    GetFilecoinBinary os = Ok bin ∧
    captured (commandOf os td stdin args t bin) outB errB ∧
    o = afterWait (mkOutput "" (splitArgs args) 0 None outB errB)
          (finalArgs td args)
          (waitErr (commandOf os td stdin args t bin))
          (ctxErr (commandOf os td stdin args t bin)).
Proof.
  split.
  - destruct (RunWithStdin os td stdin args t) as [r t'] eqn:E. simpl. intros ->.
    apply RunWithStdin_Pass in E as (bin & outB & errB & ? & ? & ? & _). eauto 10.
  - intros (bin & outB & errB & Hbin & Hcap & ->).
    by rewrite (RunWithStdin_run _ _ _ _ _ _ _ _ Hbin Hcap).
Qed.

(** X3: [RunSuccess] returns an Output exactly when the command could be
    spawned and read, waiting on it returned no error at all, and its stderr
    shows none of the forbidden markers; the Output then has code 0, no
    error, and the streams as read. *)
Theorem RunSuccess_spec os td args t o :
  fst (RunSuccess os td args t) = Pass o ↔
  ∃ bin, GetFilecoinBinary os = Ok bin ∧
    captured (commandOf os td None args t bin) (stdout o) (stderr o) ∧
    waitErr (commandOf os td None args t bin) = None ∧
    clean (stderr o) ∧
    o = mkOutput "" (splitArgs args) 0 None (stdout o) (stderr o).
Proof.
  rewrite RunSuccess_Run, RunWithStdin_fst_Pass, AssertSuccess_Pass. split.
  - intros [(bin & outB & errB & Hbin & Hcap & ->) (He & Hc & Hclean)].
    exists bin. split; [assumption|].
    destruct (waitErr (commandOf os td None args t bin)) as [[st| | |]|];
      simpl in *; try discriminate.
    auto.
  - intros (bin & Hbin & Hcap & Hwait & Hclean & Ho). split.
    + exists bin, (stdout o), (stderr o). rewrite Hwait. simpl. auto.
    + rewrite Ho. simpl. rewrite Ho in Hclean. auto.
Qed.

(** X4: [RunFail] returns an Output exactly when the command was spawned and
    read, waiting on it returned an exit error while its deadline had not
    passed, nothing was printed on stdout and stderr holds the expected
    text: a command killed at its deadline never counts as the expected
    failure. *)
Theorem RunFail_spec os td err args t o :
  fst (RunFail os td err args t) = Pass o ↔
  ∃ bin st, GetFilecoinBinary os = Ok bin ∧
    captured (commandOf os td None args t bin) "" (stderr o) ∧
    waitErr (commandOf os td None args t bin) = Some (ExitError st) ∧
    ctxErr (commandOf os td None args t bin) ≠ Some DeadlineExceeded ∧
    strings.Contains (stderr o) err = true ∧
    o = mkOutput "" (splitArgs args) 1 None "" (stderr o).
Proof.
  rewrite RunFail_Run, RunWithStdin_fst_Pass, AssertFail_Pass. split.
  - intros [(bin & outB & errB & Hbin & Hcap & ->) (He & Hc & Hout & Hin)].
    exists bin.
    destruct (waitErr (commandOf os td None args t bin)) as [[st| | |]|];
      simpl in *; try discriminate.
    exists st. unfold ReadStdout, ReadStderr in *. simpl in *. subst outB.
    destruct (ctxErr (commandOf os td None args t bin)) as [[]|];
      simpl in *; try discriminate;
      (split; [assumption|]); (split; [assumption|]); (split; [reflexivity|]);
      (split; [discriminate|]); (split; [assumption|reflexivity]).
  - intros (bin & st & Hbin & Hcap & Hwait & Hctx & Hin & Ho). split.
    + exists bin, "", (stderr o). rewrite Hwait.
      split; [assumption|]. split; [assumption|].
      destruct (ctxErr (commandOf os td None args t bin)) as [[]|];
        simpl; try exact Ho. contradiction.
    + rewrite Ho. simpl. unfold ReadStderr. simpl. rewrite Ho in Hin. auto.
Qed.

(** ** The prober's budget *)

Lemma WaitForAPI_loop_nil_iff n net json td w :
  fst (WaitForAPI_loop n net json td w) = None ↔
  ∃ k, (k < n)%nat ∧ probe net json td (requests w + k) = None.
Proof.
  revert w. induction n as [|n IH]; intros w; simpl.
  - split; [discriminate|]. intros (k & Hk & _). lia.
  - rewrite tryAPICheck_eq.
    destruct (probe net json td (requests w)) as [e|] eqn:E; simpl.
    + rewrite IH. simpl. split.
      * intros (k & Hk & Hp). exists (S k). split; [lia|].
        by rewrite Nat.add_succ_r.
      * intros ([|k] & Hk & Hp).
        { rewrite Nat.add_0_r in Hp. congruence. }
        exists k. split; [lia|]. by rewrite Nat.add_succ_r in Hp.
    + split; [|done]. intros _. exists 0%nat. split; [lia|].
      by rewrite Nat.add_0_r.
Qed.

Lemma WaitForAPI_loop_sleeps n net json td w :
  let r := WaitForAPI_loop n net json td w in
  (requests w ≤ requests (snd r) ≤ requests w + n)%nat ∧
  slept (snd r) = slept w + (Millisecond * 100) *
    (Z.of_nat (requests (snd r) - requests w)
     - match fst r with Some _ => 0 | None => 1 end).
Proof.
  revert w. induction n as [|n IH]; intros w; simpl.
  - split; [lia|]. rewrite Nat.sub_diag. simpl. lia.
  - rewrite tryAPICheck_eq.
    destruct (probe net json td (requests w)) as [e|] eqn:E; simpl.
    + specialize (IH (Sleep (Millisecond * 100)
                        (mkProbing (S (requests w)) (slept w)))).
      simpl in IH.
      destruct (WaitForAPI_loop n net json td
                  (Sleep (Millisecond * 100)
                     (mkProbing (S (requests w)) (slept w)))) as [res w'].
      simpl in *. destruct IH as [Hr Hs]. split; [lia|].
      rewrite Hs. unfold Millisecond. destruct res; lia.
    + split; [lia|]. unfold Millisecond. lia.
Qed.

(** X5: [WaitForAPI] reports the node as up exactly when one of the first
    hundred probes it may issue succeeds. *)
Theorem WaitForAPI_nil_iff net json td w :
  fst (WaitForAPI net json td w) = None ↔
  ∃ k, (k < 100)%nat ∧ probe net json td (requests w + k) = None.
Proof. apply WaitForAPI_loop_nil_iff. Qed.

(** X6: when probe number [k] is the first to succeed, [WaitForAPI] returns
    nil after exactly [k + 1] requests and [k] sleeps of 100ms: a node that
    is already up costs one request and no sleep. *)
Theorem WaitForAPI_first_success net json td w k :
  (k < 100)%nat →
  (∀ j, (j < k)%nat → probe net json td (requests w + j) ≠ None) →
  probe net json td (requests w + k) = None →
  WaitForAPI net json td w =
  (None, mkProbing (requests w + k + 1)
           (slept w + Z.of_nat k * (Millisecond * 100))).
Proof. apply WaitForAPI_loop_success. Qed.

Lemma WaitForAPI_first_success_witness :
  WaitForAPI netLate json0 td0 (mkProbing 0 0) =
  (None, mkProbing (0 + 3 + 1) (0 + Z.of_nat 3 * (Millisecond * 100))).
Proof.
  apply (WaitForAPI_first_success netLate json0 td0 (mkProbing 0 0) 3).
  - lia.
  - intros j Hj. destruct j as [|[|[|j]]]; [discriminate..|lia].
  - reflexivity.
Defined.

(** X7: whatever the node answers, [WaitForAPI] issues between one and a
    hundred requests and sleeps 100ms after every failed probe and at no
    other time, so never more than ten seconds in all. *)
Theorem WaitForAPI_budget net json td w :
  (requests w < requests (snd (WaitForAPI net json td w)) ≤ requests w + 100)%nat ∧
  slept (snd (WaitForAPI net json td w)) =
    slept w + (Millisecond * 100) *
      (Z.of_nat (requests (snd (WaitForAPI net json td w)) - requests w)
       - match fst (WaitForAPI net json td w) with Some _ => 0 | None => 1 end) ∧
  slept w ≤ slept (snd (WaitForAPI net json td w)) ≤ slept w + 10 * Second.
Proof.
  pose proof (WaitForAPI_loop_sleeps 100 net json td w) as [Hr Hs].
  fold (WaitForAPI net json td w) in Hr, Hs.
  assert (Hpos : (requests w < requests (snd (WaitForAPI net json td w)))%nat).
  { unfold WaitForAPI. simpl. rewrite tryAPICheck_eq.
    destruct (probe net json td (requests w)); simpl; [|lia].
    pose proof (WaitForAPI_loop_sleeps 99 net json td
                  (Sleep (Millisecond * 100)
                     (mkProbing (S (requests w)) (slept w)))) as [Hr' _].
    simpl in Hr'. lia. }
  split; [lia|]. split; [exact Hs|].
  rewrite Hs. unfold Second, Millisecond.
  destruct (fst (WaitForAPI net json td w)); lia.
Qed.

(** ** Shutdown: what marks the test as failed *)

(** X8: when the daemon's stderr can be read, [ShutdownSuccess] marks the
    test as failed exactly if the signal could not be sent or stderr holds
    CRITICAL, ERROR or WARNING (the marker "Error:" is not looked for), and
    [ShutdownEasy] exactly if the signal could not be sent, whatever the
    daemon printed; neither ever clears an earlier failure. *)
Theorem ShutdownSuccess_failed proc td h out :
  daemonStderr proc = Ok out →
  failed (snd (ShutdownSuccess proc td h)) =
    (failed h || bool_decide (signal proc SIGTERM ≠ None)
     || strings.Contains out "CRITICAL" || strings.Contains out "ERROR"
     || strings.Contains out "WARNING") ∧
  failed (snd (ShutdownEasy proc td h)) =
    (failed h || bool_decide (signal proc SIGINT ≠ None)).
Proof.
  intros Hout. unfold ShutdownSuccess, ShutdownEasy, Signalled. rewrite Hout.
  destruct (signal proc SIGTERM), (signal proc SIGINT); simpl;
    destruct (failed h), (strings.Contains out "CRITICAL"),
      (strings.Contains out "ERROR"), (strings.Contains out "WARNING");
    split; reflexivity.
Qed.

Lemma ShutdownSuccess_failed_witness :
  failed (snd (ShutdownSuccess procOk td0 host0)) =
    (failed host0 || bool_decide (signal procOk SIGTERM ≠ None)
     || strings.Contains "" "CRITICAL" || strings.Contains "" "ERROR"
     || strings.Contains "" "WARNING") ∧
  failed (snd (ShutdownEasy procOk td0 host0)) =
    (failed host0 || bool_decide (signal procOk SIGINT ≠ None)).
Proof. apply (ShutdownSuccess_failed procOk td0 host0 ""). reflexivity. Defined.

(** X9: when the termination signal cannot be sent, [Shutdown] stops the
    test (or panics, if the daemon's stderr cannot be read) before it looks
    at the repository directory: nothing is deleted and nothing delivered,
    also for a daemon without a repository directory. *)
Theorem Shutdown_signal_failed disk proc td h err :
  signal proc SIGTERM = Some err →
  dirs (snd (Shutdown disk proc td h)) = dirs h ∧
  delivered (snd (Shutdown disk proc td h)) = delivered h ∧
  match daemonStderr proc with
  | Ok _ => Shutdown disk proc td h = (Aborted, markFailed true h)
  | Err e => Shutdown disk proc td h = (PanicErr e, h)
  end.
Proof.
  intros Hsig. unfold Shutdown, Signalled. rewrite Hsig.
  destruct (daemonStderr proc); simpl; auto.
Qed.

Lemma Shutdown_signal_failed_witness :
  dirs (snd (Shutdown diskPlain procGone tdNoRepo host0)) = dirs host0 ∧
  delivered (snd (Shutdown diskPlain procGone tdNoRepo host0)) = delivered host0 ∧
  match daemonStderr procGone with
  | Ok _ => Shutdown diskPlain procGone tdNoRepo host0 = (Aborted, markFailed true host0)
  | Err e => Shutdown diskPlain procGone tdNoRepo host0 = (PanicErr e, host0)
  end.
Proof.
  apply (Shutdown_signal_failed diskPlain procGone tdNoRepo host0
           (PlainError "os: process already finished")).
  reflexivity.
Defined.

(** ** The coordinator and its goroutines *)

Lemma forallb_isDone_lookup (st : list Peer) i x :
  st !! i = Some x → isDone x = false → forallb isDone st = false.
Proof.
  revert i. induction st as [|y st IH]; intros [|i]; simpl; try done.
  - intros [= ->] ->. reflexivity.
  - intros Hi Hx. rewrite (IH i Hi Hx). apply andb_false_r.
Qed.

(** X10: a peer whose goroutine has ended on a failed assertion never
    signals, so the coordinator can only end in its timeout failure,
    whatever the other peers report and however long it waits. *)
Theorem await_exited_peer os json expHead peers st wait sched t i f :
  st !! i = Some (Exited f) →
  fst (await os json expHead peers st wait sched t) = Fatal timeout.
Proof.
  revert st t. induction sched as [|[at_ j] sched IH]; intros st t Hi; simpl;
    rewrite (forallb_isDone_lookup st i (Exited f) Hi eq_refl); [reflexivity|].
  destruct (decide (wait ≤ at_)); [reflexivity|].
  destruct (peers !! j) as [p|]; [|by apply IH].
  destruct (st !! j) as [[| |f']|] eqn:Hj; try by apply IH.
  destruct (pollOnce os json expHead p t) as [st_j t'].
  apply IH. rewrite list_lookup_insert_ne; [done|].
  intros ->. congruence.
Qed.

Lemma await_exited_peer_witness :
  fst (await osCatchUp jsonLines (headOf []) [td1; td0]
         [Exited (Panicked "boom"); Polling] Second
         [(100 * Millisecond, 1%nat); (200 * Millisecond, 1%nat)] t0)
  = Fatal timeout.
Proof.
  apply (await_exited_peer osCatchUp jsonLines (headOf []) [td1; td0]
           [Exited (Panicked "boom"); Polling] Second
           [(100 * Millisecond, 1%nat); (200 * Millisecond, 1%nat)] t0
           0%nat (Panicked "boom")).
  reflexivity.
Defined.

Lemma pending_done st : forallb isDone st = true → pending st = 0%nat.
Proof.
  unfold pending. induction st as [|[| |f] st IH]; simpl; done.
Qed.

Lemma pending_replicate n : pending (replicate n Polling) = n.
Proof.
  unfold pending. induction n as [|n IH]; simpl; [done|]. by rewrite IH.
Qed.

Lemma pending_insert st i x y :
  st !! i = Some x → (pending st ≤ S (pending (<[i:=y]> st)))%nat.
Proof.
  unfold pending. revert i. induction st as [|z st IH]; intros [|i]; simpl; try done.
  - intros _. rewrite !filter_cons. repeat case_decide; simpl; lia.
  - intros Hi. specialize (IH i Hi).
    rewrite !filter_cons. repeat case_decide; simpl; lia.
Qed.

Lemma spawned_logged td args t : spawned (logged td args t) = S (spawned t).
Proof. reflexivity. Qed.

Lemma await_spawned os json expHead peers wait bin :
  GetFilecoinBinary os = Ok bin →
  ∀ sched st t,
    (spawned t ≤ spawned (snd (await os json expHead peers st wait sched t))
       ≤ spawned t + List.length sched)%nat ∧
    (fst (await os json expHead peers st wait sched t) = Pass tt →
     (spawned t + pending st ≤
      spawned (snd (await os json expHead peers st wait sched t)))%nat).
Proof.
  intros Hbin. induction sched as [|[at_ j] sched IH]; intros st t; simpl.
  - destruct (forallb isDone st) eqn:Hd; simpl; (split; [lia|]).
    + intros _. rewrite (pending_done st Hd). lia.
    + discriminate.
  - destruct (forallb isDone st) eqn:Hd; simpl.
    { split; [lia|]. intros _. rewrite (pending_done st Hd). lia. }
    destruct (decide (wait ≤ at_)); simpl; [split; [lia|discriminate]|].
    destruct (peers !! j) as [p|].
    2:{ destruct (IH st t) as [H1 H2]. split; [lia|exact H2]. }
    destruct (st !! j) as [[| |f']|] eqn:Hj;
      try (destruct (IH st t) as [H1 H2]; split; [lia|exact H2]).
    unfold pollOnce.
    pose proof (GetChainHead_state os json p t bin Hbin) as Hs.
    pose proof (pending_insert st j Polling) as Hp.
    destruct (GetChainHead os json p t) as [[blks|f] t1]; simpl in Hs; subst t1.
    + destruct (types.Equals expHead (headOf blks));
        match goal with |- context [await _ _ _ _ ?st' _ _ ?t'] =>
          destruct (IH st' t') as [H1 H2] end;
        rewrite spawned_logged in H1, H2;
        (split; [lia|]); intros Hpass; specialize (H2 Hpass);
        match goal with |- context [<[j:=?y]> st] =>
          specialize (Hp y Hj) end; lia.
    + match goal with |- context [await _ _ _ _ ?st' _ _ ?t'] =>
          destruct (IH st' t') as [H1 H2] end.
      rewrite spawned_logged in H1, H2.
      split; [lia|]. intros Hpass. specialize (H2 Hpass).
      specialize (Hp (Exited f) Hj). lia.
Qed.

(** ** Reading the chain *)

Lemma SplitChar_nonempty a c : strings.SplitChar a c ≠ [].
Proof.
  induction a as [|x a IH]; simpl; [done|].
  destruct (Ascii.eqb x c); [done|].
  by destruct (strings.SplitChar a c).
Qed.

Lemma TrimLeftChar_cons s c :
  strings.TrimLeftChar (String c s) c = strings.TrimLeftChar s c.
Proof. simpl. by rewrite Ascii.eqb_refl. Qed.

Lemma TrimRightChar_snoc s c :
  strings.TrimRightChar (s +:+ String c "") c = strings.TrimRightChar s c.
Proof.
  induction s as [|x s IH].
  - rewrite append_nil. simpl. by rewrite Ascii.eqb_refl.
  - rewrite append_cons. simpl. by rewrite IH.
Qed.

Lemma TrimLeftChar_snoc s c :
  strings.TrimLeftChar (s +:+ String c "") c = strings.TrimLeftChar s c +:+ String c "" ∨
  (strings.TrimLeftChar (s +:+ String c "") c = "" ∧ strings.TrimLeftChar s c = "").
Proof.
  induction s as [|x s IH].
  - right. rewrite append_nil. simpl. by rewrite Ascii.eqb_refl.
  - rewrite append_cons. simpl. destruct (Ascii.eqb x c); [exact IH|].
    left. by rewrite append_cons.
Qed.

Lemma TrimChar_cons s c : strings.TrimChar (String c s) c = strings.TrimChar s c.
Proof. unfold strings.TrimChar. by rewrite TrimLeftChar_cons. Qed.

Lemma TrimChar_snoc s c :
  strings.TrimChar (s +:+ String c "") c = strings.TrimChar s c.
Proof.
  unfold strings.TrimChar.
  destruct (TrimLeftChar_snoc s c) as [->|[-> ->]]; [|done].
  apply TrimRightChar_snoc.
Qed.

Lemma unmarshalLines_Pass json lines bs :
  unmarshalLines json lines = Pass bs ↔
  Forall2 (fun line b => unmarshalBlocks json line = Ok b) lines bs.
Proof.
  revert bs. induction lines as [|line lines IH]; intros bs; simpl.
  - split; [intros [= <-]; constructor | by intros ->%Forall2_nil_inv_l].
  - destruct (unmarshalBlocks json line) as [b|e] eqn:E.
    + split.
      * intros (bs' & H & [= <-])%bindT_Pass. constructor; [done|]. by apply IH.
      * intros (b' & bs' & Hb & H & ->)%Forall2_cons_inv_l.
        apply IH in H. rewrite H. rewrite E in Hb. injection Hb as ->.
        reflexivity.
    + split; [discriminate|].
      intros (b' & bs' & Hb & _)%Forall2_cons_inv_l. congruence.
Qed.

Lemma unmarshalLines_Fatal json lines f :
  unmarshalLines json lines = Fatal f →
  ∃ pre line post e,
    lines = (pre ++ line :: post)%list ∧ Forall (decodable json) pre ∧
    unmarshalBlocks json line = Err e ∧ f = TestFatalErr e.
Proof.
  induction lines as [|line lines IH]; simpl; [discriminate|].
  destruct (unmarshalBlocks json line) as [b|e] eqn:E.
  - destruct (unmarshalLines json lines) as [bs|f'] eqn:E'; simpl; [discriminate|].
    intros [= <-]. destruct (IH eq_refl) as (pre & l & post & e & -> & Hpre & He & ->).
    exists (line :: pre), l, post, e. repeat split; [|done].
    constructor; [by exists b|done].
  - intros [= <-]. exists [], line, lines, e. repeat split; [constructor|done].
Qed.

Lemma MustUnmarshalChain_Pass json input bs :
  MustUnmarshalChain json input = Pass bs ↔
  Forall2 (fun line b => unmarshalBlocks json line = Ok b) (chainLines input) bs.
Proof. apply unmarshalLines_Pass. Qed.

Lemma MustUnmarshalChain_nonempty json input bs :
  MustUnmarshalChain json input = Pass bs → bs ≠ [].
Proof.
  intros H%MustUnmarshalChain_Pass ->. apply Forall2_nil_inv_r in H.
  by apply SplitChar_nonempty in H.
Qed.

(** X12: [MustUnmarshalChain] decodes the output line by line, after the
    newlines around it are cut off.  It returns one tipset per line, in
    order, so never an empty chain; it fails with the error of the first line
    that does not decode, also when only later lines are broken. *)
Theorem MustUnmarshalChain_spec json input :
  (∀ bs, MustUnmarshalChain json input = Pass bs ↔
     Forall2 (fun line b => unmarshalBlocks json line = Ok b) (chainLines input) bs) ∧
  (∀ bs, MustUnmarshalChain json input = Pass bs →
     bs ≠ [] ∧ List.length bs = List.length (chainLines input)) ∧
  (∀ f, MustUnmarshalChain json input = Fatal f →
     ∃ pre line post e,
       chainLines input = (pre ++ line :: post)%list ∧ Forall (decodable json) pre ∧
       unmarshalBlocks json line = Err e ∧ f = TestFatalErr e).
Proof.
  unfold MustUnmarshalChain, chainLines. split; [|split].
  - intros bs. apply unmarshalLines_Pass.
  - intros bs H%unmarshalLines_Pass.
    pose proof (Forall2_length _ _ _ H) as Hlen. split; [|done].
    intros ->. destruct (strings.SplitChar (strings.TrimChar input newline) newline) eqn:E; [|done].
    by apply SplitChar_nonempty in E.
  - intros f. apply unmarshalLines_Fatal.
Qed.

(** X13: newlines before and after the output do not matter to
    [MustUnmarshalChain], and an output without any other character is
    decoded as the single empty line. *)
Theorem MustUnmarshalChain_newlines json input :
  MustUnmarshalChain json (String newline input) = MustUnmarshalChain json input ∧
  MustUnmarshalChain json (input +:+ String newline "") = MustUnmarshalChain json input ∧
  (strings.TrimChar input newline = "" → chainLines input = [""]).
Proof.
  unfold MustUnmarshalChain, chainLines.
  rewrite TrimChar_cons, TrimChar_snoc. repeat split. by intros ->.
Qed.

Lemma RunWithStdin_no_panic os td stdin args t msg :
  fst (RunWithStdin os td stdin args t) ≠ Fatal (Panicked msg).
Proof.
  unfold RunWithStdin. unfold_M.
  destruct (GetFilecoinBinary os) as [bin|e]; simpl; [|discriminate].
  set (cmd := spawn os (spawned t) bin (finalArgs td args) stdin (cmdTimeout td)).
  destruct (stderrPipeErr cmd); simpl; [discriminate|].
  destruct (stdoutPipeErr cmd); simpl; [discriminate|].
  destruct (startErr cmd); simpl; [discriminate|].
  destruct (stderrRead cmd); simpl; [|discriminate].
  destruct (stdoutRead cmd); simpl; discriminate.
Qed.

Lemma AssertSuccess_no_panic o msg : AssertSuccess o ≠ Fatal (Panicked msg).
Proof.
  unfold AssertSuccess, require.Equal, require.NotContains.
  destruct (Error o); simpl; [discriminate|].
  destruct (Code o) as [|c|c]; simpl; [|discriminate..].
  destruct (strings.Contains (ReadStderr o) "CRITICAL"); simpl; [discriminate|].
  destruct (strings.Contains (ReadStderr o) "ERROR"); simpl; [discriminate|].
  destruct (strings.Contains (ReadStderr o) "WARNING"); simpl; [discriminate|].
  destruct (strings.Contains (ReadStderr o) "Error:"); simpl; discriminate.
Qed.

Lemma unmarshalLines_no_panic json lines msg :
  unmarshalLines json lines ≠ Fatal (Panicked msg).
Proof.
  intros H. apply unmarshalLines_Fatal in H as (? & ? & ? & ? & _ & _ & _ & [=]).
Qed.

Lemma RunSuccess_no_panic os td args t msg :
  fst (RunSuccess os td args t) ≠ Fatal (Panicked msg).
Proof.
  unfold RunSuccess, Run. unfold_M.
  pose proof (RunWithStdin_no_panic os td None args t msg) as Hrun.
  destruct (RunWithStdin os td None args t) as [[o|f] t1]; simpl in *; [|exact Hrun].
  apply AssertSuccess_no_panic.
Qed.

(** X14: [GetChainHead] never fails on its index into the chain, since an
    output always has a first line; it returns the blocks that the first line
    of the trimmed [chain ls] output decodes to, and only if every other line
    decodes as well. *)
Theorem GetChainHead_spec os json td t :
  (∀ msg, fst (GetChainHead os json td t) ≠ Fatal (Panicked msg)) ∧
  (∀ blks, fst (GetChainHead os json td t) = Pass blks ↔
     ∃ o first rest,
       fst (RunSuccess os td chainLs t) = Pass o ∧
       chainLines (ReadStdout o) = first :: rest ∧
       unmarshalBlocks json first = Ok blks ∧
       Forall (decodable json) rest).
Proof.
  unfold GetChainHead. unfold_M.
  pose proof (RunSuccess_no_panic os td chainLs t) as Hrun.
  destruct (RunSuccess os td chainLs t) as [[o|f] t1]; simpl in *.
  2:{ split; [intros msg [= ->]; by eapply Hrun|].
      intros blks. split; [discriminate|]. intros (? & ? & ? & [=] & _). }
  pose proof (MustUnmarshalChain_Pass json (ReadStdout o)) as Hpass.
  pose proof (MustUnmarshalChain_nonempty json (ReadStdout o)) as Hne.
  pose proof (unmarshalLines_no_panic json (chainLines (ReadStdout o))) as Hmu.
  fold (MustUnmarshalChain json (ReadStdout o)) in Hmu.
  destruct (MustUnmarshalChain json (ReadStdout o)) as [bc|f] eqn:E; simpl.
  2:{ split; [intros msg [= ->]; by eapply Hmu|].
      intros blks. split; [discriminate|].
      intros (o' & first & rest & [= <-] & Hl & Hf & Hrest).
      assert (∃ bs, Forall2 (fun line b => unmarshalBlocks json line = Ok b)
                      (chainLines (ReadStdout o)) bs) as [bs Hbs].
      { rewrite Hl. clear -Hf Hrest. induction Hrest as [|l rest [b Hb] _ IH].
        - exists [blks]. by repeat constructor.
        - destruct IH as [bs IH]. inversion IH; subst.
          eexists (_ :: b :: _). constructor; [done|]. constructor; done. }
      apply Hpass in Hbs. discriminate Hbs. }
  pose proof (Hne bc eq_refl) as Hbc.
  destruct bc as [|b bc]; [done|]. simpl. split; [discriminate|].
  intros blks. pose proof (proj1 (Hpass (b :: bc)) eq_refl) as H2.
  split.
  - intros [= ->]. inversion H2 as [|first b' rest bs' Hf Hrest Hl]; subst.
    exists o, first, rest. repeat split; [done..|].
    clear -Hrest. induction Hrest; constructor; [by eexists|done].
  - intros (o' & first & rest & [= <-] & Hl & Hf & _).
    rewrite Hl in H2. inversion H2; subst. congruence.
Qed.

(** ** Lines of a command's output *)

Lemma SplitChar_no_sep a c :
  Forall (fun l => strings.Contains l (String c "") = false) (strings.SplitChar a c).
Proof.
  induction a as [|x a IH]; simpl; [by repeat constructor|].
  destruct (Ascii.eqb x c) eqn:Hx; [by constructor|].
  destruct (strings.SplitChar a c) as [|h t].
  { constructor; [|constructor]. by rewrite Contains_cons_char, Hx. }
  apply Forall_cons in IH as [Hh Ht]. constructor; [|done].
  by rewrite Contains_cons_char, Hx, Hh.
Qed.

Lemma TrimChar_head s c :
  strings.TrimChar s c = "" ∨
  ∃ x r, strings.TrimChar s c = String x r ∧ Ascii.eqb x c = false.
Proof.
  unfold strings.TrimChar.
  assert (Hl : strings.TrimLeftChar s c = "" ∨
               ∃ x r, strings.TrimLeftChar s c = String x r ∧ Ascii.eqb x c = false).
  { induction s as [|x s IH]; simpl; [by left|].
    destruct (Ascii.eqb x c) eqn:Hx; [done|]. right. by exists x, s. }
  destruct Hl as [->|(x & r & -> & Hx)]; [by left|]. right. simpl.
  destruct (strings.TrimRightChar r c); rewrite ?Hx; eauto.
Qed.

Lemma SplitChar_head_prefix a c :
  ∃ h t, strings.SplitChar a c = h :: t ∧ String.prefix h a = true ∧
         (h = "" → a = "" ∨ ∃ r, a = String c r).
Proof.
  induction a as [|x a (h & t & IH & Hp & _)]; simpl.
  - exists "", []. eauto.
  - destruct (Ascii.eqb_spec x c) as [->|Hne].
    + exists "", (h :: t). rewrite IH. eauto.
    + exists (String x h), t. rewrite IH. split; [done|]. split; [|done].
      simpl. by destruct (ascii_dec x x).
Qed.

Lemma RunSuccessLines_Pass os td args t lines :
  fst (RunSuccessLines os td args t) = Pass lines ↔
  ∃ o, fst (RunSuccess os td args t) = Pass o ∧
       lines = strings.SplitChar (ReadStdoutTrimNewlines o) newline.
Proof.
  unfold RunSuccessLines. unfold_M.
  destruct (RunSuccess os td args t) as [[o|f] t1]; simpl.
  - split; [intros [= <-]; eauto|]. by intros (o' & [= <-] & ->).
  - split; [discriminate|]. by intros (o' & [=] & _).
Qed.

(** X15: the lines [RunSuccessLines] returns are never an empty list, none
    of them holds a newline, and joined by newlines they are the command's
    stdout without the newlines around it. *)
Theorem RunSuccessLines_spec os td args t lines :
  fst (RunSuccessLines os td args t) = Pass lines →
  ∃ o, fst (RunSuccess os td args t) = Pass o ∧
    lines ≠ [] ∧
    Forall (fun l => strings.Contains l (String newline "") = false) lines ∧
    strings.Join lines (String newline "") = ReadStdoutTrimNewlines o.
Proof.
  intros (o & Ho & ->)%RunSuccessLines_Pass. exists o.
  split; [done|]. split; [apply SplitChar_nonempty|].
  split; [apply SplitChar_no_sep|apply Join_SplitChar].
Qed.

Lemma RunSuccessLines_spec_witness :
  ∃ o, fst (RunSuccess osTwoLines td0 ["chain ls"] t0) = Pass o ∧
    ["QmA"; "QmB"] ≠ [] ∧
    Forall (fun l => strings.Contains l (String newline "") = false) ["QmA"; "QmB"] ∧
    strings.Join ["QmA"; "QmB"] (String newline "") = ReadStdoutTrimNewlines o.
Proof.
  apply (RunSuccessLines_spec osTwoLines td0 ["chain ls"] t0 ["QmA"; "QmB"]).
  reflexivity.
Defined.

(** X16: [RunSuccessFirstLine] never fails on its index into the lines.  The
    line it returns holds no newline and is what the trimmed stdout starts
    with; it is empty only when the command printed nothing but newlines. *)
Theorem RunSuccessFirstLine_spec os td args t :
  (∀ msg, fst (RunSuccessFirstLine os td args t) ≠ Fatal (Panicked msg)) ∧
  (∀ line, fst (RunSuccessFirstLine os td args t) = Pass line →
     ∃ o, fst (RunSuccess os td args t) = Pass o ∧
       strings.Contains line (String newline "") = false ∧
       String.prefix line (ReadStdoutTrimNewlines o) = true ∧
       (line = "" → ReadStdoutTrimNewlines o = "")).
Proof.
  unfold RunSuccessFirstLine. unfold_M.
  pose proof (RunSuccessLines_Pass os td args t) as Hlines.
  assert (Hnp : ∀ msg, fst (RunSuccessLines os td args t) ≠ Fatal (Panicked msg)).
  { intros msg. unfold RunSuccessLines. unfold_M.
    pose proof (RunSuccess_no_panic os td args t msg) as Hrun.
    destruct (RunSuccess os td args t) as [[o|f] t1]; simpl in *; [discriminate|].
    intros [= ->]. by apply Hrun. }
  destruct (RunSuccessLines os td args t) as [[lines|f] t1]; simpl in *.
  2:{ split; [intros msg [= ->]; by eapply Hnp|]. discriminate. }
  destruct (proj1 (Hlines lines) eq_refl) as (o & Ho & ->).
  destruct (SplitChar_head_prefix (ReadStdoutTrimNewlines o) newline)
    as (h & tl & E & Hp & Hempty).
  pose proof (SplitChar_no_sep (ReadStdoutTrimNewlines o) newline) as Hs.
  rewrite E in Hs |- *. apply Forall_cons in Hs as [Hs _].
  simpl. split; [discriminate|]. intros line [= <-]. exists o.
  split; [done|]. split.
  - exact Hs.
  - split; [done|]. intros Hh. destruct (Hempty Hh) as [|[r Hr]]; [done|].
    unfold ReadStdoutTrimNewlines in *.
    destruct (TrimChar_head (ReadStdout o) newline) as [|(x & r' & Hx & Hne)]; [done|].
    rewrite Hx in Hr. injection Hr as -> _. by rewrite Ascii.eqb_refl in Hne.
Qed.

(** ** Starting a daemon *)

Lemma RunSuccess_state os td args t bin :
  GetFilecoinBinary os = Ok bin →
  snd (RunSuccess os td args t) = logged td args t.
Proof.
  intros Hbin. unfold RunSuccess, Run.
  pose proof (RunWithStdin_state os td None args t bin Hbin) as Hs.
  unfold_M.
  destruct (RunWithStdin os td None args t) as [[o|f] t1]; simpl in *; [|exact Hs].
  destruct (AssertSuccess o); simpl; exact Hs.
Qed.

Lemma logged_eq td args t :
  logged td args t = mkTest (logs t ++ [runLog td args]) (S (spawned t)).
Proof. reflexivity. Qed.

(** The imports stop at the first one that fails; each one tried is logged. *)
Lemma importKeys_state os td bin :
  GetFilecoinBinary os = Ok bin →
  ∀ files t, ∃ k,
    (k ≤ List.length files)%nat ∧
    snd (importKeys os td files t) =
      mkTest (logs t ++ ((fun file => runLog td ["wallet"; "import"; file])
                           <$> take k files))
             (spawned t + k) ∧
    (fst (importKeys os td files t) = Pass tt → k = List.length files).
Proof.
  intros Hbin. induction files as [|file files IH]; intros t; simpl.
  - exists 0%nat. simpl. rewrite app_nil_r, Nat.add_0_r. by destruct t.
  - unfold_M.
    pose proof (RunSuccess_state os td ["wallet"; "import"; file] t bin Hbin) as Hs.
    destruct (RunSuccess os td ["wallet"; "import"; file] t) as [[o|f] t1];
      simpl in Hs; subst t1.
    + destruct (IH (logged td ["wallet"; "import"; file] t)) as (k & Hk & Hst & Hp).
      exists (S k). split; [lia|]. rewrite Hst. simpl.
      rewrite <- app_assoc, Nat.add_succ_r. split; [done|].
      intros H. by rewrite (Hp H).
    + exists 1%nat. simpl. split; [lia|]. rewrite Nat.add_1_r.
      split; [done|discriminate].
Qed.

(** X17: [Start] runs no command unless the process started and the API
    answered within the prober's budget; when it succeeds it has imported
    every key file of a first run, one [wallet import] each and in order, and
    it returns the daemon as it was. *)
Theorem Start_spec os net json processStart td w t bin :
  GetFilecoinBinary os = Ok bin →
  (processStart ≠ None ∨ fst (WaitForAPI net json td w) ≠ None →
     snd (Start os net json processStart td w t) = t ∧
     ∃ f, fst (Start os net json processStart td w t) = Fatal f) ∧
  (∀ td', fst (Start os net json processStart td w t) = Pass td' →
     td' = td ∧ processStart = None ∧ fst (WaitForAPI net json td w) = None ∧
     snd (Start os net json processStart td w t) =
       mkTest (logs t ++ ((fun file => runLog td ["wallet"; "import"; file])
                            <$> keysToImport td))
              (spawned t + List.length (keysToImport td))).
Proof.
  intros Hbin. unfold Start, keysToImport. unfold_M.
  destruct processStart as [e|]; simpl.
  { split; [eauto|discriminate]. }
  destruct (fst (WaitForAPI net json td w)) as [e|]; simpl.
  { split; [eauto|discriminate]. }
  split; [intros [|]; done|]. intros td'.
  destruct (firstRun td).
  - destruct (importKeys_state os td bin Hbin (keyFiles td) t) as (k & _ & Hst & Hp).
    destruct (importKeys os td (keyFiles td) t) as [[[]|f] t1]; simpl in *;
      [|discriminate].
    intros [= <-]. rewrite Hst, (Hp eq_refl), firstn_all. done.
  - simpl. intros [= <-]. rewrite app_nil_r, Nat.add_0_r. by destruct t.
Qed.

Lemma Start_spec_witness :
  (@None error ≠ None ∨ fst (WaitForAPI netLate json0 tdKeys (mkProbing 0 0)) ≠ None →
     snd (Start osQuiet netLate json0 None tdKeys (mkProbing 0 0) t0) = t0 ∧
     ∃ f, fst (Start osQuiet netLate json0 None tdKeys (mkProbing 0 0) t0) = Fatal f) ∧
  (∀ td', fst (Start osQuiet netLate json0 None tdKeys (mkProbing 0 0) t0) = Pass td' →
     td' = tdKeys ∧ @None error = None ∧
     fst (WaitForAPI netLate json0 tdKeys (mkProbing 0 0)) = None ∧
     snd (Start osQuiet netLate json0 None tdKeys (mkProbing 0 0) t0) =
       mkTest (logs t0 ++ ((fun file => runLog tdKeys ["wallet"; "import"; file])
                             <$> keysToImport tdKeys))
              (spawned t0 + List.length (keysToImport tdKeys))).
Proof.
  apply (Start_spec osQuiet netLate json0 None tdKeys (mkProbing 0 0) t0
           "/usr/bin/go-filecoin").
  reflexivity.
Defined.

Example Start_imports_keys :
  Start osQuiet netLate json0 None tdKeys (mkProbing 0 0) t0 =
  (Pass tdKeys,
   mkTest [runLog tdKeys ["wallet"; "import"; "a.key"];
           runLog tdKeys ["wallet"; "import"; "b.key"]] 2).
Proof. vm_compute. reflexivity. Qed.

(** ** Mining *)

Lemma RunSuccess_fst_spawned os td args t :
  fst (RunSuccess os td args t) = fst (RunSuccess os td args (mkTest [] (spawned t))).
Proof.
  unfold RunSuccess, Run, RunWithStdin. unfold_M.
  destruct (GetFilecoinBinary os) as [bin|e]; simpl; [|done].
  set (cmd := spawn os (spawned t) bin (finalArgs td args) None (cmdTimeout td)).
  destruct (stderrPipeErr cmd); simpl; [done|].
  destruct (stdoutPipeErr cmd); simpl; [done|].
  destruct (startErr cmd); simpl; [done|].
  destruct (stderrRead cmd); simpl; [|done].
  destruct (stdoutRead cmd); simpl; [|done].
  match goal with |- context [AssertSuccess ?o] => destruct (AssertSuccess o) end;
    done.
Qed.

(** The runs of the loop: all but the last succeeded, and the last one
    failed with the failure of the loop unless the loop ran to its end. *)
Lemma MakeMoney_loop_no_peers os json td scheds bin :
  GetFilecoinBinary os = Ok bin →
  ∀ n i t, ∃ k,
    (k ≤ n)%nat ∧
    snd (MakeMoney_loop n i os json td None scheds t) =
      mkTest (logs t ++ replicate k (runLog td ["mining"; "once"])) (spawned t + k) ∧
    (∀ j, (j + 1 < k)%nat → ∃ o, mineAt os td (spawned t + j) = Pass o) ∧
    (fst (MakeMoney_loop n i os json td None scheds t) = Pass tt →
     k = n ∧ ∀ j, (j < k)%nat → ∃ o, mineAt os td (spawned t + j) = Pass o) ∧
    (∀ f, fst (MakeMoney_loop n i os json td None scheds t) = Fatal f →
     (1 ≤ k)%nat ∧ mineAt os td (spawned t + (k - 1)) = Fatal f).
Proof.
  intros Hbin. induction n as [|n IH]; intros i t; simpl.
  - exists 0%nat. simpl. rewrite app_nil_r, Nat.add_0_r.
    split; [lia|]. split; [by destruct t|]. split; [intros j Hj; lia|].
    split; [|discriminate]. intros _. split; [done|]. intros j Hj. lia.
  - unfold MineAndPropagate. unfold_M.
    pose proof (RunSuccess_state os td ["mining"; "once"] t bin Hbin) as Hs.
    pose proof (RunSuccess_fst_spawned os td ["mining"; "once"] t) as Hf.
    fold (mineAt os td (spawned t)) in Hf.
    destruct (RunSuccess os td ["mining"; "once"] t) as [[o|f] t1];
      simpl in Hs, Hf; subst t1; simpl.
    + destruct (IH (S i) (logged td ["mining"; "once"] t))
        as (k & Hk & Hst & Hmid & Hpass & Hfail).
      rewrite spawned_logged in Hmid, Hpass, Hfail.
      exists (S k). split; [lia|]. split.
      { rewrite Hst. simpl. by rewrite <- app_assoc, Nat.add_succ_r. }
      split; [|split].
      * intros [|j] Hj.
        { exists o. by rewrite Nat.add_0_r. }
        rewrite Nat.add_succ_r. apply Hmid. lia.
      * intros H. destruct (Hpass H) as [-> Hall]. split; [done|].
        intros [|j] Hj.
        { exists o. by rewrite Nat.add_0_r. }
        rewrite Nat.add_succ_r. apply Hall. lia.
      * intros f H. destruct (Hfail f H) as [Hk1 Hm]. split; [lia|].
        replace (spawned t + (S k - 1))%nat with (S (spawned t) + (k - 1))%nat by lia.
        exact Hm.
    + exists 1%nat. simpl. split; [lia|]. split; [by rewrite Nat.add_1_r|].
      split; [intros j Hj; lia|]. split; [discriminate|].
      intros f' [= <-]. split; [lia|]. by rewrite Nat.add_0_r.
Qed.

(** X18: without peers [MakeMoney] only ever runs [mining once], and it stops
    at the first run that fails: of the [k] runs it makes, all but the last
    succeeded; if it returns normally it made one run per reward and all
    succeeded, and if it fails the last run is the one that failed, with that
    failure.  A reward count of zero or less runs nothing, and the chain head
    is never asked for. *)
Theorem MakeMoney_no_peers os json td rewards scheds t bin :
  GetFilecoinBinary os = Ok bin →
  ∃ k,
    (k ≤ Z.to_nat rewards)%nat ∧
    snd (MakeMoney os json td rewards None scheds t) =
      mkTest (logs t ++ replicate k (runLog td ["mining"; "once"])) (spawned t + k) ∧
    (∀ j, (j + 1 < k)%nat → ∃ o, mineAt os td (spawned t + j) = Pass o) ∧
    (fst (MakeMoney os json td rewards None scheds t) = Pass tt →
     k = Z.to_nat rewards ∧
     ∀ j, (j < k)%nat → ∃ o, mineAt os td (spawned t + j) = Pass o) ∧
    (∀ f, fst (MakeMoney os json td rewards None scheds t) = Fatal f →
     (1 ≤ k)%nat ∧ mineAt os td (spawned t + (k - 1)) = Fatal f) ∧
    (rewards ≤ 0 → MakeMoney os json td rewards None scheds t = (Pass tt, t)).
Proof.
  intros Hbin. unfold MakeMoney.
  destruct (MakeMoney_loop_no_peers os json td scheds bin Hbin
              (Z.to_nat rewards) 0%nat t) as (k & Hk & Hst & Hmid & Hpass & Hfail).
  exists k. split; [done|]. split; [done|]. split; [done|]. split; [done|].
  split; [done|].
  intros Hle. replace (Z.to_nat rewards) with 0%nat by lia. reflexivity.
Qed.

Lemma MakeMoney_no_peers_witness :
  ∃ k,
    (k ≤ Z.to_nat 3)%nat ∧
    snd (MakeMoney osSecondFails jsonLines td0 3 None (fun _ => []) t0) =
      mkTest (logs t0 ++ replicate k (runLog td0 ["mining"; "once"]))
             (spawned t0 + k) ∧
    (∀ j, (j + 1 < k)%nat → ∃ o, mineAt osSecondFails td0 (spawned t0 + j) = Pass o) ∧
    (fst (MakeMoney osSecondFails jsonLines td0 3 None (fun _ => []) t0) = Pass tt →
     k = Z.to_nat 3 ∧
     ∀ j, (j < k)%nat → ∃ o, mineAt osSecondFails td0 (spawned t0 + j) = Pass o) ∧
    (∀ f, fst (MakeMoney osSecondFails jsonLines td0 3 None (fun _ => []) t0) = Fatal f →
     (1 ≤ k)%nat ∧ mineAt osSecondFails td0 (spawned t0 + (k - 1)) = Fatal f) ∧
    (3 ≤ 0 →
     MakeMoney osSecondFails jsonLines td0 3 None (fun _ => []) t0 = (Pass tt, t0)).
Proof.
  apply (MakeMoney_no_peers osSecondFails jsonLines td0 3 (fun _ => []) t0
           "/usr/bin/go-filecoin").
  reflexivity.
Defined.

(** Three rewards asked for, the second run fails: two runs, no third. *)
Example MakeMoney_stops :
  MakeMoney osSecondFails jsonLines td0 3 None (fun _ => []) t0 =
  (Fatal (EqualFailed 0 1 ["Error: out of gas"]),
   mkTest [runLog td0 ["mining"; "once"]; runLog td0 ["mining"; "once"]] 2).
Proof. vm_compute. reflexivity. Qed.

(** ** Identity and connection *)

Lemma GetID_state os unmarshal td t bin :
  GetFilecoinBinary os = Ok bin →
  snd (GetID os unmarshal td t) = logged td ["id"] t.
Proof.
  intros Hbin. unfold GetID.
  pose proof (RunSuccess_state os td ["id"] t bin Hbin) as Hs. unfold_M.
  destruct (RunSuccess os td ["id"] t) as [[o|f] t1]; simpl in *; [|exact Hs].
  destruct (unmarshal (ReadStdout o)) as [parsed|e]; simpl; [|exact Hs].
  destruct (parsed !! "ID") as [[]|]; simpl; exact Hs.
Qed.

Lemma GetAddress_state os unmarshal td t bin :
  GetFilecoinBinary os = Ok bin →
  snd (GetAddress os unmarshal td t) = logged td ["id"] t.
Proof.
  intros Hbin. unfold GetAddress.
  pose proof (RunSuccess_state os td ["id"] t bin Hbin) as Hs. unfold_M.
  destruct (RunSuccess os td ["id"] t) as [[o|f] t1]; simpl in *; [|exact Hs].
  destruct (unmarshal (ReadStdout o)) as [parsed|e]; simpl; [|exact Hs].
  destruct (parsed !! "Addresses") as [[| | | |[|[] ?]|]|]; simpl; exact Hs.
Qed.

Lemma RunSuccess_Output os td args t o :
  fst (RunSuccess os td args t) = Pass o →
  Args o = splitArgs args ∧ Error o = None ∧ Code o = 0.
Proof.
  intros [Hrun (He & Hc & _)%AssertSuccess_Pass]%RunSuccess_Run.
  apply RunWithStdin_fst_Pass in Hrun as (bin & outB & errB & _ & _ & ->).
  split; [|done].
  by destruct (waitErr (commandOf os td None args t bin)) as [[]|].
Qed.

(** X19: [GetID] returns exactly the string the node reports under [ID], and
    [GetAddress] the first entry of [Addresses]; a missing or non-string
    entry, and a node that reports no address at all, end in a panic. *)
Theorem GetID_GetAddress_spec os unmarshal td t o parsed :
  fst (RunSuccess os td ["id"] t) = Pass o →
  unmarshal (ReadStdout o) = Ok parsed →
  (∀ id, fst (GetID os unmarshal td t) = Pass id ↔ parsed !! "ID" = Some (JString id)) ∧
  (∀ a, fst (GetAddress os unmarshal td t) = Pass a ↔
        ∃ rest, parsed !! "Addresses" = Some (JArray (JString a :: rest))) ∧
  ((∀ id, parsed !! "ID" ≠ Some (JString id)) →
     ∃ msg, fst (GetID os unmarshal td t) = Fatal (Panicked msg)) ∧
  (parsed !! "Addresses" = Some (JArray []) →
     fst (GetAddress os unmarshal td t) = Fatal (Panicked "index out of range")).
Proof.
  intros Hrun Hparse. unfold GetID, GetAddress. unfold_M.
  destruct (RunSuccess os td ["id"] t) as [[o'|f] t1]; simpl in *; [|discriminate].
  injection Hrun as ->. rewrite Hparse. simpl.
  split; [|split; [|split]].
  - intros id. destruct (parsed !! "ID") as [[]|]; simpl;
      split; intros [=]; subst; done.
  - intros a. destruct (parsed !! "Addresses") as [[| | | |[|[] ?]|]|]; simpl;
      (split; [intros [=]; subst; eauto | intros [rest [=]]; subst; done]).
  - intros Hno. destruct (parsed !! "ID") as [[]|]; simpl; eauto.
    by destruct (Hno str).
  - intros ->. reflexivity.
Qed.

Lemma GetID_GetAddress_spec_witness :
  (∀ id, fst (GetID osQuiet unmarshalId td0 t0) = Pass id ↔
         ({[ "ID" := JString ""; "Addresses" := JArray [JString ""] ]}
            : gmap string JSON) !! "ID" = Some (JString id)) ∧
  (∀ a, fst (GetAddress osQuiet unmarshalId td0 t0) = Pass a ↔
        ∃ rest, ({[ "ID" := JString ""; "Addresses" := JArray [JString ""] ]}
                   : gmap string JSON) !! "Addresses"
                = Some (JArray (JString a :: rest))) ∧
  ((∀ id, ({[ "ID" := JString ""; "Addresses" := JArray [JString ""] ]}
             : gmap string JSON) !! "ID" ≠ Some (JString id)) →
     ∃ msg, fst (GetID osQuiet unmarshalId td0 t0) = Fatal (Panicked msg)) ∧
  (({[ "ID" := JString ""; "Addresses" := JArray [JString ""] ]}
      : gmap string JSON) !! "Addresses" = Some (JArray []) →
     fst (GetAddress osQuiet unmarshalId td0 t0) = Fatal (Panicked "index out of range")).
Proof.
  apply (GetID_GetAddress_spec osQuiet unmarshalId td0 t0
           (mkOutput "" ["id"] 0 None "" "")); reflexivity.
Defined.

(** X20: a successful [ConnectSuccess] has run six commands, in this order:
    [id] on the remote node (for its address), [swarm connect] to that
    address and [swarm peers] on this node, [swarm peers] and [id] on the
    remote node, [id] on this node; it returns the Output of
    [swarm connect]. *)
Theorem ConnectSuccess_spec os unmarshal td remote t out bin :
  GetFilecoinBinary os = Ok bin →
  fst (ConnectSuccess os unmarshal td remote t) = Pass out →
  ∃ addr,
    fst (GetAddress os unmarshal remote t) = Pass addr ∧
    Args out = ["swarm"; "connect"; addr] ∧
    Error out = None ∧ Code out = 0 ∧
    snd (ConnectSuccess os unmarshal td remote t) =
      mkTest (logs t ++
              [runLog remote ["id"];
               runLog td ["swarm"; "connect"; addr];
               runLog td ["swarm"; "peers"];
               runLog remote ["swarm"; "peers"];
               ("[success] 1 -> 2", []);
               runLog remote ["id"];
               ("[success] 2 -> 1", []);
               runLog td ["id"]])
             (spawned t + 6).
Proof.
  intros Hbin. unfold ConnectSuccess. unfold_M.
  pose proof (GetAddress_state os unmarshal remote t bin Hbin) as Hs0.
  destruct (GetAddress os unmarshal remote t) as [[addr|f] t1];
    simpl in Hs0; subst t1; simpl; [|discriminate].
  pose proof (RunSuccess_state os td ["swarm"; "connect"; addr]
                (logged remote ["id"] t) bin Hbin) as Hs1.
  pose proof (RunSuccess_Output os td ["swarm"; "connect"; addr]
                (logged remote ["id"] t) out) as Hout.
  destruct (RunSuccess os td ["swarm"; "connect"; addr] (logged remote ["id"] t))
    as [[o1|f] t1]; simpl in Hs1; subst t1; simpl; [|discriminate].
  match goal with |- context [RunSuccess os td ["swarm"; "peers"] ?t'] =>
    pose proof (RunSuccess_state os td ["swarm"; "peers"] t' bin Hbin) as Hs2;
    destruct (RunSuccess os td ["swarm"; "peers"] t') as [[peers1|f] t2];
    simpl in Hs2; subst t2; simpl; [|discriminate] end.
  match goal with |- context [RunSuccess os remote ["swarm"; "peers"] ?t'] =>
    pose proof (RunSuccess_state os remote ["swarm"; "peers"] t' bin Hbin) as Hs3;
    destruct (RunSuccess os remote ["swarm"; "peers"] t') as [[peers2|f] t3];
    simpl in Hs3; subst t3; simpl; [|discriminate] end.
  unfold Log; simpl.
  match goal with |- context [GetID os unmarshal remote ?t'] =>
    pose proof (GetID_state os unmarshal remote t' bin Hbin) as Hs4;
    destruct (GetID os unmarshal remote t') as [[remoteID|f] t4];
    simpl in Hs4; subst t4; simpl; [|discriminate] end.
  destruct (require.Contains (ReadStdout peers1) remoteID); simpl; [|discriminate].
  match goal with |- context [GetID os unmarshal td ?t'] =>
    pose proof (GetID_state os unmarshal td t' bin Hbin) as Hs5;
    destruct (GetID os unmarshal td t') as [[tdID|f] t5];
    simpl in Hs5; subst t5; simpl; [|discriminate] end.
  destruct (require.Contains (ReadStdout peers2) tdID); simpl; [|discriminate].
  intros [= ->]. exists addr. split; [reflexivity|].
  destruct (Hout eq_refl) as (Ha & He & Hc).
  split; [exact Ha|]. split; [exact He|]. split; [exact Hc|].
  unfold logged, runLog. simpl. rewrite <- !app_assoc. simpl.
  f_equal. lia.
Qed.

Lemma ConnectSuccess_spec_witness :
  ∃ addr,
    fst (GetAddress osQuiet unmarshalId td1 t0) = Pass addr ∧
    Args (mkOutput "" ["swarm"; "connect"; ""] 0 None "" "")
      = ["swarm"; "connect"; addr] ∧
    Error (mkOutput "" ["swarm"; "connect"; ""] 0 None "" "") = None ∧
    Code (mkOutput "" ["swarm"; "connect"; ""] 0 None "" "") = 0 ∧
    snd (ConnectSuccess osQuiet unmarshalId td0 td1 t0) =
      mkTest (logs t0 ++
              [runLog td1 ["id"];
               runLog td0 ["swarm"; "connect"; addr];
               runLog td0 ["swarm"; "peers"];
               runLog td1 ["swarm"; "peers"];
               ("[success] 1 -> 2", []);
               runLog td1 ["id"];
               ("[success] 2 -> 1", []);
               runLog td0 ["id"]])
             (spawned t0 + 6).
Proof.
  apply (ConnectSuccess_spec osQuiet unmarshalId td0 td1 t0
           (mkOutput "" ["swarm"; "connect"; ""] 0 None "" "")
           "/usr/bin/go-filecoin"); reflexivity.
Defined.

(** ** Configuring a daemon *)

Lemma orFatal_Pass {A} (r : result A) a : orFatal r = Pass a ↔ r = Ok a.
Proof. destruct r; simpl; split; congruence. Qed.

Lemma noFatal_Pass err : noFatal err = Pass tt ↔ err = None.
Proof. destruct err; simpl; split; congruence. Qed.

Lemma NewDaemon_Pass os env options td cmd :
  NewDaemon os env options = Pass (td, cmd) ↔
  ∃ bin cmdPort swarmPort dir,
    GetFilecoinBinary os = Ok bin ∧
    GetFreePort env 0 = Ok cmdPort ∧ GetFreePort env 1 = Ok swarmPort ∧
    TempDir env = Ok dir ∧
    td = foldl (fun td option => option td)
           (defaultDaemon env cmdPort swarmPort dir) options ∧
    (init td = true → snd (RunInit os (initFlags td)) = None) ∧
    daemonStdoutPipe env = None ∧ daemonStderrPipe env = None ∧
    daemonStdinPipe env = None ∧
    cmd = (bin, daemonArgs td).
Proof.
  unfold NewDaemon, defaultDaemon. split.
  - intros H.
    apply bindT_Pass in H as (bin & Hbin%orFatal_Pass & H).
    apply bindT_Pass in H as (cmdPort & Hc%orFatal_Pass & H).
    apply bindT_Pass in H as (swarmPort & Hs%orFatal_Pass & H).
    apply bindT_Pass in H as (dir & Hd%orFatal_Pass & H).
    apply bindT_Pass in H as ([] & Hinit & H).
    apply bindT_Pass in H as ([] & H1%noFatal_Pass & H).
    apply bindT_Pass in H as ([] & H2%noFatal_Pass & H).
    apply bindT_Pass in H as ([] & H3%noFatal_Pass & H).
    injection H as <- <-.
    exists bin, cmdPort, swarmPort, dir. repeat split; try done.
    intros Hi. rewrite Hi in Hinit. by apply noFatal_Pass in Hinit.
  - intros (bin & cmdPort & swarmPort & dir & -> & -> & -> & -> & -> & Hinit
            & -> & -> & -> & ->). simpl.
    match goal with |- context [init ?td] => destruct (init td) eqn:Hi end.
    + rewrite (Hinit eq_refl). reflexivity.
    + reflexivity.
Qed.

(** X21: when [NewDaemon] succeeds, the [init] command (if the daemon is to
    be initialised) ran without error, and [init], the daemon process and
    every command later run on the daemon are given the same [--repodir]
    and [--cmdapiaddr] flags. *)
Theorem NewDaemon_same_flags os env options td cmd :
  NewDaemon os env options = Pass (td, cmd) →
  (init td = true → snd (RunInit os (initFlags td)) = None) ∧
  snd cmd = daemonArgs td ∧
  take 2 (initFlags td) = take 2 (drop 1 (snd cmd)) ∧
  (∀ args, finalArgs td args = (splitArgs args ++ take 2 (drop 1 (snd cmd)))%list).
Proof.
  intros (bin & cmdPort & swarmPort & dir & _ & _ & _ & _ & _ & Hinit & _ & _ & _ & ->)
    %NewDaemon_Pass.
  split; [exact Hinit|]. repeat split.
Qed.

Lemma exported_keeps option td :
  exported option →
  cmdAddr (option td) = cmdAddr td ∧ mockMine (option td) = mockMine td ∧
  firstRun (option td) = firstRun td ∧ keyFiles (option td) = keyFiles td.
Proof.
  intros [[? ->]|[[? ->]|[[? ->]|[[? ->]|[[? ->]|[[? ->]|[? ->]]]]]]]; done.
Qed.

Lemma foldl_exported_keeps options td :
  Forall exported options →
  cmdAddr (foldl (fun td option => option td) td options) = cmdAddr td ∧
  mockMine (foldl (fun td option => option td) td options) = mockMine td ∧
  firstRun (foldl (fun td option => option td) td options) = firstRun td ∧
  keyFiles (foldl (fun td option => option td) td options) = keyFiles td.
Proof.
  intros Hall. revert td. induction Hall as [|option options Ho _ IH]; intros td; [done|].
  simpl. destruct (IH (option td)) as (-> & -> & -> & ->).
  by apply exported_keeps.
Qed.

(** X22: no option of the package changes the control address, the mock
    mining flag, the first-run mark or the key files: a daemon made by
    [NewDaemon] listens for commands on the first free port, is probed at
    that port, is always started with [--mock-mine], and imports the default
    key files at its first start. *)
Theorem NewDaemon_fixed_fields os env options td cmd :
  Forall exported options →
  NewDaemon os env options = Pass (td, cmd) →
  ∃ cmdPort,
    GetFreePort env 0 = Ok cmdPort ∧
    cmdAddr td = ":" +:+ pretty cmdPort ∧
    apiURL td = "http://127.0.0.1:" +:+ pretty cmdPort +:+ "/api/id" ∧
    snd cmd !! 3%nat = Some "--mock-mine" ∧
    keysToImport td = KeyFilePaths env.
Proof.
  intros Hall (bin & cmdPort & swarmPort & dir & _ & Hc & _ & _ & -> & _ & _ & _ & _ & ->)
    %NewDaemon_Pass.
  destruct (foldl_exported_keeps options (defaultDaemon env cmdPort swarmPort dir) Hall)
    as (Ha & Hm & Hf & Hk).
  exists cmdPort. split; [done|]. unfold apiURL, keysToImport, daemonArgs.
  rewrite Ha, Hm, Hf, Hk. simpl. repeat split.
Qed.

Lemma NewDaemon_fixed_fields_witness :
  ∃ cmdPort,
    GetFreePort env0 0 = Ok cmdPort ∧
    cmdAddr (RepoDir "/data/repo" (ShouldInit false (defaultDaemon env0 3453 6000 "/tmp/go-fil-test42")))
      = ":" +:+ pretty cmdPort ∧
    apiURL (RepoDir "/data/repo" (ShouldInit false (defaultDaemon env0 3453 6000 "/tmp/go-fil-test42")))
      = "http://127.0.0.1:" +:+ pretty cmdPort +:+ "/api/id" ∧
    snd ("/usr/bin/go-filecoin",
         daemonArgs (RepoDir "/data/repo"
                       (ShouldInit false (defaultDaemon env0 3453 6000 "/tmp/go-fil-test42"))))
      !! 3%nat = Some "--mock-mine" ∧
    keysToImport (RepoDir "/data/repo" (ShouldInit false (defaultDaemon env0 3453 6000 "/tmp/go-fil-test42")))
      = KeyFilePaths env0.
Proof.
  apply (NewDaemon_fixed_fields osQuiet env0 [ShouldInit false; RepoDir "/data/repo"]).
  - constructor; [right; right; left; by eexists|].
    constructor; [right; left; by eexists|constructor].
  - vm_compute. reflexivity.
Defined.

Lemma NewDaemon_same_flags_witness :
  (init (RepoDir "/data/repo" (defaultDaemon env0 3453 6000 "/tmp/go-fil-test42")) = true →
   snd (RunInit osQuiet
          (initFlags (RepoDir "/data/repo"
                        (defaultDaemon env0 3453 6000 "/tmp/go-fil-test42")))) = None) ∧
  snd ("/usr/bin/go-filecoin",
       daemonArgs (RepoDir "/data/repo" (defaultDaemon env0 3453 6000 "/tmp/go-fil-test42")))
    = daemonArgs (RepoDir "/data/repo" (defaultDaemon env0 3453 6000 "/tmp/go-fil-test42")) ∧
  take 2 (initFlags (RepoDir "/data/repo" (defaultDaemon env0 3453 6000 "/tmp/go-fil-test42")))
    = take 2 (drop 1 (snd ("/usr/bin/go-filecoin",
         daemonArgs (RepoDir "/data/repo"
                       (defaultDaemon env0 3453 6000 "/tmp/go-fil-test42"))))) ∧
  (∀ args,
     finalArgs (RepoDir "/data/repo" (defaultDaemon env0 3453 6000 "/tmp/go-fil-test42")) args
     = (splitArgs args ++ take 2 (drop 1 (snd ("/usr/bin/go-filecoin",
         daemonArgs (RepoDir "/data/repo"
                       (defaultDaemon env0 3453 6000 "/tmp/go-fil-test42"))))))%list).
Proof.
  apply (NewDaemon_same_flags osQuiet env0 [RepoDir "/data/repo"]).
  vm_compute. reflexivity.
Defined.

Example NewDaemon_default :
  NewDaemon osQuiet env0 [] =
  Pass (mkTestDaemon ":3453" "/ip4/127.0.0.1/tcp/6000" "/tmp/go-fil-test42" "" ""
          "fixtures/genesis.car" true ["fixtures/a.key"; "fixtures/b.key"] true true
          DefaultDaemonCmdTimeout,
        ("/usr/bin/go-filecoin",
         ["daemon"; "--repodir=/tmp/go-fil-test42"; "--cmdapiaddr=:3453";
          "--mock-mine"; "--swarmlisten=/ip4/127.0.0.1/tcp/6000"])).
Proof. vm_compute. reflexivity. Qed.

Example initFlags_default :
  initFlags (WalletFile "w.json" (defaultDaemon env0 3453 6000 "/tmp/x")) =
  ["--repodir=/tmp/x"; "--cmdapiaddr=:3453"; "--walletfile=w.json"; "--walletaddr=";
   "--testgenesis=true"; "--genesisfile=fixtures/genesis.car"].
Proof. vm_compute. reflexivity. Qed.

(** X23: two daemons made by [NewDaemon] from different free ports have
    different control addresses, whatever options of the package each was
    given. *)
Theorem NewDaemon_distinct_addresses os envA envB optionsA optionsB tdA cmdA tdB cmdB :
  Forall exported optionsA → Forall exported optionsB →
  NewDaemon os envA optionsA = Pass (tdA, cmdA) →
  NewDaemon os envB optionsB = Pass (tdB, cmdB) →
  GetFreePort envA 0 ≠ GetFreePort envB 0 →
  cmdAddr tdA ≠ cmdAddr tdB.
Proof.
  intros HA HB
    (? & pA & sA & dA & _ & HpA & _ & _ & -> & _)%NewDaemon_Pass
    (? & pB & sB & dB & _ & HpB & _ & _ & -> & _)%NewDaemon_Pass Hne.
  destruct (foldl_exported_keeps optionsA (defaultDaemon envA pA sA dA) HA) as (-> & _).
  destruct (foldl_exported_keeps optionsB (defaultDaemon envB pB sB dB) HB) as (-> & _).
  simpl. intros Heq. apply Hne. rewrite HpA, HpB. f_equal.
  apply (inj pretty). by apply (inj (String.app ":")) in Heq.
Qed.

Lemma NewDaemon_distinct_addresses_witness :
  cmdAddr (defaultDaemon env0 3453 6000 "/tmp/go-fil-test42") ≠
  cmdAddr (RepoDir "/data/repo" (defaultDaemon env1 3454 6001 "/tmp/go-fil-test43")).
Proof.
  apply (NewDaemon_distinct_addresses osQuiet env0 env1 [] [RepoDir "/data/repo"]
           _ ("/usr/bin/go-filecoin", daemonArgs (defaultDaemon env0 3453 6000 "/tmp/go-fil-test42"))
           _ ("/usr/bin/go-filecoin",
              daemonArgs (RepoDir "/data/repo"
                            (defaultDaemon env1 3454 6001 "/tmp/go-fil-test43")))).
  - constructor.
  - constructor; [right; left; by eexists|constructor].
  - vm_compute. reflexivity.
  - vm_compute. reflexivity.
  - discriminate.
Defined.

(** ** Mining and propagation *)

(** X24: [MineAndPropagate] mines before anything else.  Without peers (a nil
    slice) this is its only command; with a slice of peers, even an empty
    one, a successful mining is followed by one [chain ls] on the node itself
    and then only by [chain ls] on peers; if mining fails no chain is read. *)
Theorem MineAndPropagate_order os json td wait sched t bin :
  GetFilecoinBinary os = Ok bin →
  snd (MineAndPropagate os json td wait None sched t)
    = logged td ["mining"; "once"] t ∧
  (∀ ps f, fst (RunSuccess os td ["mining"; "once"] t) = Fatal f →
     MineAndPropagate os json td wait (Some ps) sched t
       = (Fatal f, logged td ["mining"; "once"] t)) ∧
  (∀ ps o, fst (RunSuccess os td ["mining"; "once"] t) = Pass o →
     ∃ polls,
       logs (snd (MineAndPropagate os json td wait (Some ps) sched t))
         = (logs t ++ runLog td ["mining"; "once"] :: runLine td :: polls)%list ∧
       Forall (fun e => ∃ p, p ∈ ps ∧ e = runLine p) polls).
Proof.
  intros Hbin. unfold MineAndPropagate. unfold_M.
  pose proof (RunSuccess_state os td ["mining"; "once"] t bin Hbin) as Hs.
  destruct (RunSuccess os td ["mining"; "once"] t) as [[o|f] t1];
    simpl in Hs; subst t1; simpl.
  - split; [reflexivity|]. split; [discriminate|]. intros ps _ _.
    unfold MustHaveChainHeadBy.
    pose proof (GetChainHead_state os json td (logged td ["mining"; "once"] t)
                  bin Hbin) as Hs.
    destruct (GetChainHead os json td (logged td ["mining"; "once"] t))
      as [[blks|f] t1]; simpl in Hs; subst t1.
    + destruct (await_logs os json (headOf blks) ps wait bin Hbin sched
                  (replicate (List.length ps) Polling)
                  (logged td chainLs (logged td ["mining"; "once"] t)))
        as (polls & Hlogs & Hpolls).
      exists polls. rewrite Hlogs. split; [|exact Hpolls].
      simpl. by rewrite <- !app_assoc.
    + exists []. split; [|constructor]. simpl. by rewrite <- !app_assoc.
  - split; [reflexivity|]. split; [|discriminate]. by intros ps f' [= ->].
Qed.

Lemma MineAndPropagate_order_witness :
  snd (MineAndPropagate osQuiet jsonLines td0 Second None [] t0)
    = logged td0 ["mining"; "once"] t0 ∧
  (∀ ps f, fst (RunSuccess osQuiet td0 ["mining"; "once"] t0) = Fatal f →
     MineAndPropagate osQuiet jsonLines td0 Second (Some ps) [] t0
       = (Fatal f, logged td0 ["mining"; "once"] t0)) ∧
  (∀ ps o, fst (RunSuccess osQuiet td0 ["mining"; "once"] t0) = Pass o →
     ∃ polls,
       logs (snd (MineAndPropagate osQuiet jsonLines td0 Second (Some ps) [] t0))
         = (logs t0 ++ runLog td0 ["mining"; "once"] :: runLine td0 :: polls)%list ∧
       Forall (fun e => ∃ p, p ∈ ps ∧ e = runLine p) polls).
Proof.
  apply (MineAndPropagate_order osQuiet jsonLines td0 Second [] t0
           "/usr/bin/go-filecoin").
  reflexivity.
Defined.

(** An empty slice of peers is not the nil slice: the node's own head is
    still read once. *)
Example MineAndPropagate_empty_slice :
  snd (MineAndPropagate osQuiet jsonLines td0 Second None [] t0)
    = mkTest [runLog td0 ["mining"; "once"]] 1 ∧
  MineAndPropagate osQuiet jsonLines td0 Second (Some []) [] t0
    = (Pass tt, mkTest [runLog td0 ["mining"; "once"]; runLine td0] 2).
Proof. vm_compute. auto. Qed.

(** ** Convergence at the first poll *)

Lemma GetChainHead_headAt os json p t :
  fst (GetChainHead os json p t) = headAt os json p (spawned t).
Proof.
  unfold headAt, GetChainHead, RunSuccess, Run, RunWithStdin. unfold_M.
  destruct (GetFilecoinBinary os) as [bin|e]; simpl; [|done].
  set (cmd := spawn os (spawned t) bin (finalArgs p chainLs) None (cmdTimeout p)).
  destruct (stderrPipeErr cmd); simpl; [done|].
  destruct (stdoutPipeErr cmd); simpl; [done|].
  destruct (startErr cmd); simpl; [done|].
  destruct (stderrRead cmd); simpl; [|done].
  destruct (stdoutRead cmd); simpl; [|done].
  match goal with |- context [AssertSuccess ?o] => destruct (AssertSuccess o) end;
    simpl; [|done].
  match goal with |- context [MustUnmarshalChain ?j ?x] =>
    destruct (MustUnmarshalChain j x) as [[|]|] end; done.
Qed.

Lemma forallb_isDone_middle i (rest : list Peer) :
  forallb isDone (replicate i Done ++ Polling :: rest)%list = false.
Proof.
  apply (forallb_isDone_lookup _ i Polling); [|done].
  rewrite lookup_app_r; rewrite length_replicate; [|lia].
  by rewrite Nat.sub_diag.
Qed.

Lemma insert_Done_middle i (rest : list Peer) :
  <[i:=Done]> (replicate i Done ++ Polling :: rest)%list
  = (replicate (S i) Done ++ rest)%list.
Proof.
  rewrite insert_app_r_alt; rewrite length_replicate; [|lia].
  rewrite Nat.sub_diag. simpl.
  induction i as [|i IH]; simpl; [done|]. by rewrite IH.
Qed.

Lemma await_converges os json expHead peers wait bin k0 :
  GetFilecoinBinary os = Ok bin →
  (∀ i p, peers !! i = Some p →
     ∃ blks, headAt os json p (k0 + i) = Pass blks ∧
             types.Equals expHead (headOf blks) = true) →
  ∀ ats i t,
    List.length peers = (i + List.length ats)%nat →
    Forall (fun a => a < wait) ats →
    spawned t = (k0 + i)%nat →
    await os json expHead peers
      (replicate i Done ++ replicate (List.length ats) Polling)%list wait
      (zip ats (seq i (List.length ats))) t
    = (Pass tt, mkTest (logs t ++ (runLine <$> drop i peers))
                  (spawned t + List.length ats)).
Proof.
  intros Hbin Hagree. induction ats as [|a ats IH]; intros i t Hlen Hall Hsp.
  - simpl in *. rewrite app_nil_r.
    assert (forallb isDone (replicate i Done) = true) as ->.
    { clear. induction i; simpl; auto. }
    rewrite drop_ge by lia. simpl. rewrite app_nil_r, Nat.add_0_r.
    destruct (replicate i Done); by destruct t.
  - apply Forall_cons in Hall as [Ha Hall]. simpl in Hlen.
    cbn [List.length replicate seq zip zip_with await].
    rewrite forallb_isDone_middle.
    destruct (decide (wait ≤ a)) as [Hw|_]; [lia|].
    destruct (peers !! i) as [p|] eqn:Hp.
    2:{ apply lookup_ge_None in Hp. lia. }
    rewrite lookup_app_r; rewrite length_replicate; [|lia].
    rewrite Nat.sub_diag. cbn [lookup list_lookup].
    unfold pollOnce.
    pose proof (GetChainHead_state os json p t bin Hbin) as Hs.
    pose proof (GetChainHead_headAt os json p t) as Hf.
    destruct (Hagree i p Hp) as (blks & Hb & He).
    rewrite Hsp, Hb in Hf.
    destruct (GetChainHead os json p t) as [r t1]. simpl in Hs, Hf. subst r t1.
    rewrite He, insert_Done_middle.
    rewrite (IH (S i) (logged p chainLs t)); [|lia|done|simpl; lia].
    f_equal. rewrite (drop_S peers p i Hp). simpl.
    rewrite <- app_assoc. simpl. f_equal. lia.
Qed.

(** X25: convergence at once.  When every peer, polled once and in order
    before the deadline, reports a head equal to the reference's,
    [MustHaveChainHeadBy] returns normally after one [chain ls] on the
    reference and one on each peer, without waiting for the deadline. *)
Theorem MustHaveChainHeadBy_converges os json td wait peers ats t bin ref :
  GetFilecoinBinary os = Ok bin →
  fst (GetChainHead os json td t) = Pass ref →
  List.length ats = List.length peers →
  Forall (fun a => a < wait) ats →
  (∀ i p, peers !! i = Some p →
     ∃ blks, headAt os json p (spawned t + 1 + i) = Pass blks ∧
             types.Equals (headOf ref) (headOf blks) = true) →
  MustHaveChainHeadBy os json td wait peers (oncoming ats) t
  = (Pass tt, mkTest (logs t ++ runLine td :: (runLine <$> peers))
                (spawned t + 1 + List.length peers)).
Proof.
  intros Hbin Href Hlen Hall Hagree. unfold MustHaveChainHeadBy, oncoming.
  pose proof (GetChainHead_state os json td t bin Hbin) as Hs.
  destruct (GetChainHead os json td t) as [r t1]. simpl in Hs, Href. subst r t1.
  rewrite <- Hlen.
  assert (Hlen0 : List.length peers = (0 + List.length ats)%nat) by (simpl; lia).
  assert (Hsp : spawned (logged td chainLs t) = (spawned t + 1 + 0)%nat)
    by (simpl; lia).
  pose proof (await_converges os json (headOf ref) peers wait bin (spawned t + 1)
                Hbin Hagree ats 0 (logged td chainLs t) Hlen0 Hall Hsp) as H.
  cbn beta iota zeta. etrans; [exact H|].
  rewrite logged_logs, spawned_logged, drop_0, <- app_assoc.
  replace (S (spawned t) + List.length ats)%nat
    with (spawned t + 1 + List.length ats)%nat by lia.
  reflexivity.
Qed.

Lemma MustHaveChainHeadBy_converges_witness :
  MustHaveChainHeadBy osTwoLines jsonLines td0 Second [td1; td0]
    (oncoming [100 * Millisecond; 150 * Millisecond]) t0
  = (Pass tt, mkTest (logs t0 ++ runLine td0 :: (runLine <$> [td1; td0]))
                (spawned t0 + 1 + List.length [td1; td0])).
Proof.
  apply (MustHaveChainHeadBy_converges osTwoLines jsonLines td0 Second [td1; td0]
           [100 * Millisecond; 150 * Millisecond] t0 "/usr/bin/go-filecoin"
           [types.mkBlock "QmA"]).
  - reflexivity.
  - reflexivity.
  - reflexivity.
  - repeat constructor.
  - intros [|[|i]] p Hp; [| |discriminate Hp];
      exists [types.mkBlock "QmA"]; split; reflexivity.
Defined.

(** ** Success means every peer was seen with the reference's head *)

Lemma forallb_isDone_all (st : list Peer) i x :
  forallb isDone st = true → st !! i = Some x → x = Done.
Proof.
  intros Hall Hi. destruct x as [| |f]; [|done|].
  - by rewrite (forallb_isDone_lookup st i Polling Hi eq_refl) in Hall.
  - by rewrite (forallb_isDone_lookup st i (Exited f) Hi eq_refl) in Hall.
Qed.

Lemma await_exited_timeout os json expHead peers wait sched :
  ∀ st t i f, st !! i = Some (Exited f) →
    fst (await os json expHead peers st wait sched t) = Fatal timeout.
Proof.
  induction sched as [|[at_ j] sched IH]; intros st t i f Hi; simpl;
    rewrite (forallb_isDone_lookup st i (Exited f) Hi eq_refl); [reflexivity|].
  destruct (decide (wait ≤ at_)); [reflexivity|].
  destruct (peers !! j) as [p|]; [|by eapply IH].
  destruct (st !! j) as [[| |f']|] eqn:Hj; try by eapply IH.
  destruct (pollOnce os json expHead p t) as [st_j t'].
  apply (IH _ _ i f). rewrite list_lookup_insert_ne; [done|].
  intros ->. congruence.
Qed.

Lemma test_eta t : mkTest (logs t ++ []) (spawned t + 0) = t.
Proof. destruct t. simpl. by rewrite app_nil_r, Nat.add_0_r. Qed.

(** The peers polled while the coordinator waits, in the order of their
    polls; on success each peer still polling at the start is among them,
    at a poll that reported the expected head. *)
Lemma await_trace os json expHead peers wait bin :
  GetFilecoinBinary os = Ok bin →
  ∀ sched st t, ∃ polled : list TestDaemon,
    snd (await os json expHead peers st wait sched t) =
      mkTest (logs t ++ (runLine <$> polled)) (spawned t + List.length polled) ∧
    (List.length polled ≤ List.length sched)%nat ∧
    Forall (fun p => p ∈ peers) polled ∧
    (fst (await os json expHead peers st wait sched t) = Pass tt →
     ∀ i p, peers !! i = Some p → st !! i = Some Polling →
       ∃ n blks, polled !! n = Some p ∧
         headAt os json p (spawned t + n) = Pass blks ∧
         types.Equals expHead (headOf blks) = true).
Proof.
  intros Hbin. induction sched as [|[at_ j] sched IH]; intros st t; simpl.
  - exists []. simpl. rewrite test_eta.
    destruct (forallb isDone st) eqn:Hd; simpl;
      (split; [done|]); (split; [lia|]); (split; [constructor|]);
      [|discriminate].
    intros _ i p _ Hi. by pose proof (forallb_isDone_all st i Polling Hd Hi).
  - destruct (forallb isDone st) eqn:Hd; simpl.
    { exists []. simpl. rewrite test_eta.
      split; [done|]. split; [lia|]. split; [constructor|].
      intros _ i p _ Hi. by pose proof (forallb_isDone_all st i Polling Hd Hi). }
    destruct (decide (wait ≤ at_)) as [Hle|Hgt]; simpl.
    { exists []. simpl. rewrite test_eta.
      split; [done|]. split; [lia|]. split; [constructor|discriminate]. }
    assert (Hskip : ∃ polled : list TestDaemon,
              snd (await os json expHead peers st wait sched t) =
                mkTest (logs t ++ (runLine <$> polled))
                       (spawned t + List.length polled) ∧
              (List.length polled ≤ S (List.length sched))%nat ∧
              Forall (fun p => p ∈ peers) polled ∧
              (fst (await os json expHead peers st wait sched t) = Pass tt →
               ∀ i p, peers !! i = Some p → st !! i = Some Polling →
                 ∃ n blks, polled !! n = Some p ∧
                   headAt os json p (spawned t + n) = Pass blks ∧
                   types.Equals expHead (headOf blks) = true)).
    { destruct (IH st t) as (polled & H1 & H2 & H3 & H4).
      exists polled. split; [done|]. split; [lia|]. done. }
    destruct (peers !! j) as [q|] eqn:Hq; [|exact Hskip].
    destruct (st !! j) as [[| |f']|] eqn:Hj; try exact Hskip.
    clear Hskip. unfold pollOnce.
    pose proof (GetChainHead_state os json q t bin Hbin) as Hs.
    pose proof (GetChainHead_headAt os json q t) as Hf.
    destruct (GetChainHead os json q t) as [[blks|f] t1]; simpl in Hs, Hf; subst t1.
    + destruct (types.Equals expHead (headOf blks)) eqn:He.
      * destruct (IH (<[j:=Done]> st) (logged q chainLs t))
          as (polled & H1 & H2 & H3 & H4).
        exists (q :: polled). rewrite H1, logged_logs, spawned_logged.
        split; [simpl; by rewrite <- app_assoc, Nat.add_succ_r|].
        split; [simpl; lia|].
        split; [constructor; [by eapply list_elem_of_lookup_2|done]|].
        intros Hpass i p Hp Hi. destruct (decide (i = j)) as [->|Hne].
        { exists 0%nat, blks. rewrite Nat.add_0_r.
          assert (p = q) as -> by congruence. done. }
        destruct (H4 Hpass i p Hp) as (n & blks' & Hn & Hh & Heq).
        { by rewrite list_lookup_insert_ne. }
        exists (S n), blks'. rewrite spawned_logged in Hh.
        by rewrite Nat.add_succ_r.
      * rewrite list_insert_id by done.
        destruct (IH st (logged q chainLs t)) as (polled & H1 & H2 & H3 & H4).
        exists (q :: polled). rewrite H1, logged_logs, spawned_logged.
        split; [simpl; by rewrite <- app_assoc, Nat.add_succ_r|].
        split; [simpl; lia|].
        split; [constructor; [by eapply list_elem_of_lookup_2|done]|].
        intros Hpass i p Hp Hi.
        destruct (H4 Hpass i p Hp Hi) as (n & blks' & Hn & Hh & Heq).
        exists (S n), blks'. rewrite spawned_logged in Hh.
        by rewrite Nat.add_succ_r.
    + destruct (IH (<[j:=Exited f]> st) (logged q chainLs t))
        as (polled & H1 & H2 & H3 & _).
      exists (q :: polled). rewrite H1, logged_logs, spawned_logged.
      split; [simpl; by rewrite <- app_assoc, Nat.add_succ_r|].
      split; [simpl; lia|].
      split; [constructor; [by eapply list_elem_of_lookup_2|done]|].
      rewrite (await_exited_timeout os json expHead peers wait sched
                 (<[j:=Exited f]> st) (logged q chainLs t) j f); [discriminate|].
      apply list_lookup_insert_eq. by eapply lookup_lt_Some.
Qed.

(** X11: the commands of [MustHaveChainHeadBy] are one [chain ls] on the
    reference followed by one [chain ls] per poll, each on a peer, at most
    one per scheduled poll.  It returns normally only if the reference's
    head could be read and every peer, at one of these polls, reported a
    head equal to it; so every peer was polled at least once. *)
Theorem MustHaveChainHeadBy_polls_every_peer os json td wait peers sched t bin :
  GetFilecoinBinary os = Ok bin →
  ∃ polled : list TestDaemon,
    snd (MustHaveChainHeadBy os json td wait peers sched t) =
      mkTest (logs t ++ runLine td :: (runLine <$> polled))
             (spawned t + 1 + List.length polled) ∧
    (List.length polled ≤ List.length sched)%nat ∧
    Forall (fun p => p ∈ peers) polled ∧
    (fst (MustHaveChainHeadBy os json td wait peers sched t) = Pass tt →
     (List.length peers ≤ List.length polled)%nat ∧
     ∃ ref, fst (GetChainHead os json td t) = Pass ref ∧
       ∀ i p, peers !! i = Some p →
         ∃ n blks, polled !! n = Some p ∧
           headAt os json p (spawned t + 1 + n) = Pass blks ∧
           types.Equals (headOf ref) (headOf blks) = true).
Proof.
  intros Hbin. unfold MustHaveChainHeadBy.
  pose proof (GetChainHead_state os json td t bin Hbin) as Hs.
  destruct (GetChainHead os json td t) as [[ref|f] t1]; simpl in Hs; subst t1.
  - cbn beta iota zeta.
    destruct (await_trace os json (headOf ref) peers wait bin Hbin sched
                (replicate (List.length peers) Polling) (logged td chainLs t))
      as (polled & H1 & H2 & H3 & H4).
    destruct (await_spawned os json (headOf ref) peers wait bin Hbin sched
                (replicate (List.length peers) Polling) (logged td chainLs t))
      as [_ Hcount].
    exists polled. rewrite H1, logged_logs, spawned_logged in *.
    split; [by rewrite <- app_assoc, Nat.add_1_r|]. split; [done|]. split; [done|].
    intros Hpass. split.
    { specialize (Hcount Hpass). rewrite pending_replicate in Hcount.
      simpl in Hcount. lia. }
    exists ref. split; [done|]. intros i p Hp.
    destruct (H4 Hpass i p Hp) as (n & blks & Hn & Hh & He).
    { apply lookup_replicate. split; [done|]. by eapply lookup_lt_Some. }
    exists n, blks. by rewrite Nat.add_1_r.
  - exists []. simpl. split; [by rewrite Nat.add_0_r, Nat.add_1_r|].
    split; [lia|]. split; [constructor|discriminate].
Qed.

Lemma MustHaveChainHeadBy_polls_every_peer_witness :
  ∃ polled : list TestDaemon,
    snd (MustHaveChainHeadBy osCatchUp jsonLines td0 Second [td1] schedTwice t0) =
      mkTest (logs t0 ++ runLine td0 :: (runLine <$> polled))
             (spawned t0 + 1 + List.length polled) ∧
    (List.length polled ≤ List.length schedTwice)%nat ∧
    Forall (fun p => p ∈ [td1]) polled ∧
    (fst (MustHaveChainHeadBy osCatchUp jsonLines td0 Second [td1] schedTwice t0)
       = Pass tt →
     (List.length [td1] ≤ List.length polled)%nat ∧
     ∃ ref, fst (GetChainHead osCatchUp jsonLines td0 t0) = Pass ref ∧
       ∀ i p, [td1] !! i = Some p →
         ∃ n blks, polled !! n = Some p ∧
           headAt osCatchUp jsonLines p (spawned t0 + 1 + n) = Pass blks ∧
           types.Equals (headOf ref) (headOf blks) = true).
Proof.
  apply (MustHaveChainHeadBy_polls_every_peer osCatchUp jsonLines td0 Second
           [td1] schedTwice t0 "/usr/bin/go-filecoin").
  reflexivity.
Defined.
